(** * groq-subtitles: a shallow embedding of the batch subtitle generator

    The development follows the Python sources:
    - [subtitles/config.py]      : [Config], [Config.from_env];
    - [subtitles/transcriber.py] : [WhisperTranscriber] (validation, request
      construction, response handling, subtitle formatting);
    - [subtitles/processor.py]   : [VideoProcessor] (filtering against the
      progress set, per-item pipeline, progress persistence).

    Python exceptions are values of [exn]; a statement that may raise is a
    computation in the monad [M] (state of the outside world plus a result
    that is either a value or a raised exception). *)

From Stdlib Require Import ZArith QArith Qround Lqa Floats Lia Ascii String.
From stdpp Require Import gmap strings list.

Local Open Scope Z_scope.

Set Warnings "-inexact-float".

(** ** Exceptions and results *)

Inductive exn : Type :=
| FileTooLarge (size limit : Z)              (* ValueError, transcriber.py:56 *)
| UnsupportedAudioFormat (suffix : string)   (* ValueError, transcriber.py:62 *)
| TranscriptionFailed (status : Z) (body : string) (* Exception, transcriber.py:94 *)
| UnsupportedSubtitleFormat (fmt : string)   (* ValueError, transcriber.py:112 *)
| FFmpegError (stderr : string)              (* Exception, processor.py:116 *)
| KeyError (key : string)                    (* d[key] on a dict without key *)
| FileNotFoundError (path : string)          (* stat / open / unlink *)
| JSONDecodeError                            (* json.load, response.json *)
| OverflowError                              (* int(inf) *)
| ValueError (what : string)                 (* int(nan), Enum(value), int(str) *)
| ZeroDivisionError.

Inductive result (A : Type) : Type :=
| Ok (a : A)
| Raise (e : exn).
Arguments Ok {A} a.
Arguments Raise {A} e.

#[export] Instance result_ret : MRet result := fun A a => Ok a.
#[export] Instance result_bind : MBind result := fun A B k r =>
  match r with
  | Ok a => k a
  | Raise e => Raise e
  end.

(** ** Text helpers *)

Definition nl : string := String (ascii_of_nat 10) "".

Fixpoint zeros (n : nat) : string :=
  match n with
  | O => ""
  | S n' => String "0" (zeros n')
  end.

Definition digit_char (d : N) : ascii := ascii_of_N (48 + d).

(** Decimal digits of a natural number, most significant first; the fuel is
    the binary size of the number, which bounds its number of digits. *)
Fixpoint digits_go (fuel : nat) (n : N) (acc : string) : string :=
  match fuel with
  | O => acc
  | S fuel' =>
      let acc' := String (digit_char (n mod 10)) acc in
      if (n / 10 =? 0)%N then acc' else digits_go fuel' (n / 10)%N acc'
  end.

Definition digits (n : N) : string := digits_go (S (N.to_nat (N.log2 n))) n "".

(** [str(i)] for a Python int. *)
Definition str_int (v : Z) : string :=
  if v <? 0 then String "-" (digits (Z.abs_N v)) else digits (Z.abs_N v).

(** [f"{v:0wd}"]: sign first, then zeros up to the minimal width [w]. *)
Definition format_0d (w : nat) (v : Z) : string :=
  let ds := digits (Z.abs_N v) in
  if v <? 0
  then String "-" (zeros (w - 1 - String.length ds) +:+ ds)
  else zeros (w - String.length ds) +:+ ds.

(** ** Python real numbers

    [_format_timestamp] is duck typed: the service's JSON yields [int]
    ([{"start": 0}]) and [float] ([{"end": 2.5}]); [fractions.Fraction]
    supports the same operators with exact arithmetic. *)

Inductive pynum : Type :=
| PyInt (z : Z)
| PyFloat (f : float)
| PyFraction (q : Q).

Module PyFloat.

(** [float(z)]: the nearest binary64, ties to even. *)
Definition of_Z (z : Z) : float := SF2Prim (binary_normalize prec emax z 0 false).

(** C's [fmod]: exact remainder with the sign of the dividend. *)
Definition fmod (x y : float) : float :=
  match Prim2SF x, Prim2SF y with
  | S754_nan, _ | _, S754_nan => PrimFloat.nan
  | S754_infinity _, _ => PrimFloat.nan
  | _, S754_zero _ => PrimFloat.nan
  | S754_zero _, _ => x
  | S754_finite _ _ _, S754_infinity _ => x
  | S754_finite sx mx ex, S754_finite _ my ey =>
      let e0 := Z.min ex ey in
      let X := Z.pos mx * 2 ^ (ex - e0) in
      let Y := Z.pos my * 2 ^ (ey - e0) in
      let R := X mod Y in
      let r := Z.ldexp (of_uint63 (Uint63.of_Z R)) e0 in
      if sx then (- r)%float else r
  end.

(** C's [floor]. *)
Definition floor (x : float) : float :=
  match Prim2SF x with
  | S754_finite s m e =>
      if 0 <=? e then x
      else
        let n := Z.pos m / 2 ^ (- e) in
        let exact := Z.pos m mod 2 ^ (- e) =? 0 in
        if s then (if exact then x else (- of_uint63 (Uint63.of_Z (n + 1)))%float)
        else of_uint63 (Uint63.of_Z n)
  | _ => x
  end.

(** C's [copysign(0.0, y)]. *)
Definition zero_with_sign_of (y : float) : float :=
  if get_sign y then PrimFloat.neg_zero else PrimFloat.zero.

(** [_float_div_mod] of CPython's floatobject.c, for [wx <> 0]. *)
Definition div_mod (vx wx : float) : float * float :=
  let md := fmod vx wx in
  let dv := ((vx - md) / wx)%float in
  let '(md, dv) :=
    if negb (md =? 0)%float
    then if negb (Bool.eqb (wx <? 0)%float (md <? 0)%float)
         then ((md + wx)%float, (dv - 1)%float)
         else (md, dv)
    else (zero_with_sign_of wx, dv) in
  let fd :=
    if negb (dv =? 0)%float
    then let fl := floor dv in
         if (0.5 <? dv - fl)%float then (fl + 1)%float else fl
    else zero_with_sign_of (vx / wx)%float in
  (fd, md).

(** [float_rem] of CPython's floatobject.c, for [wx <> 0]. *)
Definition rem (vx wx : float) : float :=
  let md := fmod vx wx in
  if negb (md =? 0)%float
  then if negb (Bool.eqb (wx <? 0)%float (md <? 0)%float)
       then (md + wx)%float else md
  else zero_with_sign_of wx.

(** [int(x)]: truncation toward zero; raises on NaN and infinities. *)
Definition to_int (x : float) : result Z :=
  match Prim2SF x with
  | S754_nan => Raise (ValueError "cannot convert float NaN to integer")
  | S754_infinity _ => Raise OverflowError
  | S754_zero _ => Ok 0
  | S754_finite s m e =>
      let n := if 0 <=? e then Z.pos m * 2 ^ e else Z.pos m / 2 ^ (- e) in
      Ok (if s then - n else n)
  end.

End PyFloat.

Module PyNum.

(** [int(q)] for a Fraction: truncation toward zero. *)
Definition Qtrunc (q : Q) : Z := if Qle_bool 0 q then Qfloor q else Qceiling q.

(** [x // k] for an int constant [k]. *)
Definition floordiv (x : pynum) (k : Z) : result pynum :=
  if k =? 0 then Raise ZeroDivisionError
  else match x with
       | PyInt z => Ok (PyInt (z / k))
       | PyFloat f => Ok (PyFloat (fst (PyFloat.div_mod f (PyFloat.of_Z k))))
       | PyFraction q => Ok (PyInt (Qfloor (q / inject_Z k)))
       end.

(** [x % k] for an int constant [k]. *)
Definition mod_ (x : pynum) (k : Z) : result pynum :=
  if k =? 0 then Raise ZeroDivisionError
  else match x with
       | PyInt z => Ok (PyInt (z mod k))
       | PyFloat f => Ok (PyFloat (PyFloat.rem f (PyFloat.of_Z k)))
       | PyFraction q =>
           Ok (PyFraction (q - inject_Z k * inject_Z (Qfloor (q / inject_Z k))))
       end.

(** [int(x)]. *)
Definition to_int (x : pynum) : result Z :=
  match x with
  | PyInt z => Ok z
  | PyFloat f => PyFloat.to_int f
  | PyFraction q => Ok (Qtrunc q)
  end.

(** [x - n] for a Python int [n]. *)
Definition sub_int (x : pynum) (n : Z) : pynum :=
  match x with
  | PyInt z => PyInt (z - n)
  | PyFloat f => PyFloat (f - PyFloat.of_Z n)%float
  | PyFraction q => PyFraction (q - inject_Z n)
  end.

(** [x * n] for a Python int [n]. *)
Definition mul_int (x : pynum) (n : Z) : pynum :=
  match x with
  | PyInt z => PyInt (z * n)
  | PyFloat f => PyFloat (f * PyFloat.of_Z n)%float
  | PyFraction q => PyFraction (q * inject_Z n)
  end.

End PyNum.

(** ** transcriber.py: timestamps *)

(** [WhisperTranscriber._format_timestamp] (transcriber.py:134-143). *)
Definition _format_timestamp (seconds : pynum) (vtt : bool) : result string :=
  h ← PyNum.floordiv seconds 3600;
  hours ← PyNum.to_int h;
  r ← PyNum.mod_ seconds 3600;
  m ← PyNum.floordiv r 60;
  minutes ← PyNum.to_int m;
  s ← PyNum.mod_ seconds 60;
  secs ← PyNum.to_int s;
  whole ← PyNum.to_int seconds;
  msecs ← PyNum.to_int (PyNum.mul_int (PyNum.sub_int seconds whole) 1000);
  Ok (format_0d 2 hours +:+ ":" +:+ format_0d 2 minutes +:+ ":" +:+
      format_0d 2 secs +:+ (if vtt then "." else ",") +:+ format_0d 3 msecs).

(** ** Paths ([pathlib.Path], as normalised path strings) *)

Module Path.

Definition is_slash (c : ascii) : bool := bool_decide (c = "/"%char).

Fixpoint has_slash (p : string) : bool :=
  match p with
  | EmptyString => false
  | String c r => is_slash c || has_slash r
  end.

(** [p.name]: the final component. *)
Fixpoint name (p : string) : string :=
  match p with
  | EmptyString => EmptyString
  | String c r =>
      if has_slash r then name r else if is_slash c then r else p
  end.

(** The part of [s] from its last dot on, if it has a dot. *)
Fixpoint from_last_dot (s : string) : option string :=
  match s with
  | EmptyString => None
  | String c r =>
      match from_last_dot r with
      | Some x => Some x
      | None => if bool_decide (c = "."%char) then Some s else None
      end
  end.

(** [p.suffix]: [name[i:]] for [i = name.rfind('.')] when
    [0 < i < len(name) - 1], else the empty string. *)
Definition suffix (p : string) : string :=
  match name p with
  | EmptyString => EmptyString
  | String _ r =>
      match from_last_dot r with
      | Some (String _ EmptyString) => EmptyString
      | Some suf => suf
      | None => EmptyString
      end
  end.

Fixpoint take (n : nat) (s : string) : string :=
  match n, s with
  | S n', String c r => String c (take n' r)
  | _, _ => EmptyString
  end.

(** [p.with_suffix(suf)] for a suffix [suf] that starts with a dot. *)
Definition with_suffix (p suf : string) : result string :=
  match name p with
  | EmptyString => Raise (ValueError "path has an empty name")
  | _ => Ok (take (String.length p - String.length (suffix p)) p +:+ suf)
  end.

End Path.

(** The last character of a text. *)
Fixpoint last_char (s : string) : option ascii :=
  match s with
  | EmptyString => None
  | String c EmptyString => Some c
  | String _ r => last_char r
  end.

(** [str.lower()] on ASCII text. *)
Definition lower_char (c : ascii) : ascii :=
  let n := N_of_ascii c in
  if ((65 <=? n) && (n <=? 90))%N then ascii_of_N (n + 32) else c.

Fixpoint lower (s : string) : string :=
  match s with
  | EmptyString => EmptyString
  | String c r => String (lower_char c) (lower r)
  end.

(** Truthiness of an [Optional[str]]. *)
Definition truthy (o : option string) : bool :=
  match o with
  | Some (String _ _) => true
  | _ => false
  end.

(** ** config.py *)

Inductive WhisperModel : Type := LARGE_V3 | LARGE_V3_TURBO | DISTIL_ENGLISH.

Inductive ResponseFormat : Type := JSON | VERBOSE_JSON | TEXT.

(** The members are [str] instances; [value] is the string they equal. *)
Definition WhisperModel_value (m : WhisperModel) : string :=
  match m with
  | LARGE_V3 => "whisper-large-v3"
  | LARGE_V3_TURBO => "whisper-large-v3-turbo"
  | DISTIL_ENGLISH => "distil-whisper-large-v3-en"
  end.

Definition ResponseFormat_value (r : ResponseFormat) : string :=
  match r with
  | JSON => "json"
  | VERBOSE_JSON => "verbose_json"
  | TEXT => "text"
  end.

(** [WhisperModel(s)], [ResponseFormat(s)]: lookup by value. *)
Definition WhisperModel_of (s : string) : result WhisperModel :=
  if String.eqb s "whisper-large-v3" then Ok LARGE_V3
  else if String.eqb s "whisper-large-v3-turbo" then Ok LARGE_V3_TURBO
  else if String.eqb s "distil-whisper-large-v3-en" then Ok DISTIL_ENGLISH
  else Raise (ValueError "not a valid WhisperModel").

Definition ResponseFormat_of (s : string) : result ResponseFormat :=
  if String.eqb s "json" then Ok JSON
  else if String.eqb s "verbose_json" then Ok VERBOSE_JSON
  else if String.eqb s "text" then Ok TEXT
  else Raise (ValueError "not a valid ResponseFormat").

(** [os.getenv(key, default)]. *)
Definition getenv (env : gmap string string) (key default : string) : string :=
  match env !! key with
  | Some v => v
  | None => default
  end.

(** [bool(s)] for a string. *)
Definition bool_of_str (s : string) : bool :=
  match s with
  | EmptyString => false
  | String _ _ => true
  end.

(** The built-in constructors [int(str)] and [float(str)] are parameters. *)
Record Builtins : Type := mkBuiltins {
  int_of_str : string -> result Z;
  float_of_str : string -> result float
}.

Module Config.

Record t : Type := mk {
groq_api_key : string;
model : WhisperModel;
output_format : string;
response_format : ResponseFormat;
num_workers : Z;
temperature : option float;
language : option string;
recursive : bool;
log_file : string;
prompt : option string
}.

(** [Config(groq_api_key=k)]: the dataclass defaults (config.py:22-32). *)
Definition default (k : string) : t :=
{| groq_api_key := k;
   model := LARGE_V3_TURBO;
   output_format := "srt";
   response_format := VERBOSE_JSON;
   num_workers := 4;
   temperature := Some 0%float;
   language := None;
   recursive := false;
   log_file := "subtitle_generation.log";
   prompt := None |}.

(** [Config.from_env] (config.py:34-56), on the environment as it is after
  [load_dotenv]; the keyword arguments are evaluated in source order. *)
Definition from_env (B : Builtins) (env : gmap string string) : result t :=
let key := getenv env "GROQ_API_KEY" "" in
m ← WhisperModel_of (getenv env "MODEL" "whisper-large-v3-turbo");
let fmt := getenv env "OUTPUT_FORMAT" "srt" in
n ← int_of_str B (getenv env "NUM_WORKERS" "4");
let lang := getenv env "LANGUAGE" "en" in
let rec := bool_of_str (getenv env "RECURSIVE" "False") in
let lf := getenv env "LOG_FILE" "subtitle_generation.log" in
rf ← ResponseFormat_of (getenv env "RESPONSE_FORMAT" "verbose_json");
t ← (if truthy (env !! "TEMPERATURE")
     then x ← float_of_str B (getenv env "TEMPERATURE" ""); Ok (Some x)
     else Ok None);
Ok {| groq_api_key := key;
      model := m;
      output_format := fmt;
      response_format := rf;
      num_workers := n;
      temperature := t;
      language := Some lang;
      recursive := rec;
      log_file := lf;
      prompt := env !! "PROMPT" |}.

End Config.

(** ** The outside world

    Files, the requests sent to the transcription service, the log, the
    progress bar, and the processor's mutable [_processed_files] set (one
    object shared by every worker of a run). *)

Record File : Type := mkFile {
  st_size : Z;
  content : string
}.

Definition text_file (s : string) : File :=
  {| st_size := Z.of_nat (String.length s); content := s |}.

Record Request : Type := mkRequest {
  req_url : string;
  req_authorization : string;
  req_filename : string;
  req_file : string;
  req_model : option string;
  req_response_format : string;
  req_language : option string;
  req_temperature : option float;
  req_prompt : option string
}.

Record Response : Type := mkResponse {
  status : Z;
  body : string
}.

Record Segment : Type := mkSegment {
  seg_start : pynum;
  seg_end : pynum;
  seg_text : string
}.

(** The transcription dict, by the two keys the code reads or writes. *)
Record Transcription : Type := mkTranscription {
  tr_text : option string;
  tr_segments : option (list Segment)
}.

Inductive LogRecord : Type :=
| LogInfo (msg : string)
| LogWarning (msg : string)
| LogFailed (video_path : string) (e : exn).

Record State : Type := mkState {
  files : gmap string File;
  requests : list Request;
  log : list LogRecord;
  completed : Z;
  _processed_files : gset string
}.

(** What the program does not control: the media tool, the remote service
    and the JSON decoder applied to its responses. *)
Record Outside : Type := mkOutside {
  ffmpeg_run : string -> result File;
  service : Request -> Response;
  response_json : string -> result Transcription
}.

Definition M (A : Type) : Type := State -> result A * State.

#[export] Instance M_ret : MRet M := fun A a st => (Ok a, st).
#[export] Instance M_bind : MBind M := fun A B k m st =>
  match m st with
  | (Ok a, st') => k a st'
  | (Raise e, st') => (Raise e, st')
  end.

Definition raise {A} (e : exn) : M A := fun st => (Raise e, st).

Definition lift {A} (r : result A) : M A := fun st => (r, st).

(** [try: body except Exception as e: handler(e)]. *)
Definition try_except {A} (body : M A) (handler : exn -> M A) : M A := fun st =>
  match body st with
  | (Ok a, st') => (Ok a, st')
  | (Raise e, st') => handler e st'
  end.

Definition set_files (f : gmap string File -> gmap string File) (st : State) : State :=
  {| files := f (files st); requests := requests st; log := log st;
     completed := completed st; _processed_files := _processed_files st |}.

Definition stat_size (path : string) : M Z := fun st =>
  match files st !! path with
  | Some f => (Ok (st_size f), st)
  | None => (Raise (FileNotFoundError path), st)
  end.

Definition read_file (path : string) : M string := fun st =>
  match files st !! path with
  | Some f => (Ok (content f), st)
  | None => (Raise (FileNotFoundError path), st)
  end.

(** [open(path, "w")] followed by the writes and the close. *)
Definition write_text (path text : string) : M unit := fun st =>
  (Ok tt, set_files (insert path (text_file text)) st).

Definition unlink (path : string) : M unit := fun st =>
  match files st !! path with
  | Some _ => (Ok tt, set_files (delete path) st)
  | None => (Raise (FileNotFoundError path), st)
  end.

Definition post (O : Outside) (req : Request) : M Response := fun st =>
  (Ok (service O req),
   {| files := files st; requests := requests st ++ [req]; log := log st;
      completed := completed st; _processed_files := _processed_files st |}).

Definition log_record (r : LogRecord) : M unit := fun st =>
  (Ok tt,
   {| files := files st; requests := requests st; log := log st ++ [r];
      completed := completed st; _processed_files := _processed_files st |}).

(** [progress.update(task_id, advance=n)]. *)
Definition progress_update (n : Z) : M unit := fun st =>
  (Ok tt,
   {| files := files st; requests := requests st; log := log st;
      completed := completed st + n; _processed_files := _processed_files st |}).

(** [self._processed_files.add(path)]. *)
Definition processed_add (path : string) : M unit := fun st =>
  (Ok tt,
   {| files := files st; requests := requests st; log := log st;
      completed := completed st;
      _processed_files := {[path]} ∪ _processed_files st |}).

Definition get_processed : M (gset string) := fun st => (Ok (_processed_files st), st).

Definition set_processed (s : gset string) : M unit := fun st =>
  (Ok tt,
   {| files := files st; requests := requests st; log := log st;
      completed := completed st; _processed_files := s |}).

(** ** transcriber.py *)

Module WhisperTranscriber.

Record t : Type := mk {
  api_key : string;
  model : option string;
  language : option string;
  response_format : ResponseFormat;
  temperature : option float;
  prompt : option string;
  api_url : string
}.

(** Defaults of [__init__]'s parameters (transcriber.py:38-42). *)
Definition default_model : option string := Some (WhisperModel_value LARGE_V3_TURBO).
Definition default_language : option string := None.
Definition default_response_format : ResponseFormat := VERBOSE_JSON.
Definition default_temperature : option float := None.
Definition default_prompt : option string := None.

(** [__init__(self, api_key, model, language, response_format,
    temperature, prompt)], parameters in positional order. *)
Definition __init__ (api_key : string) (model : option string)
    (language : option string) (response_format : ResponseFormat)
    (temperature : option float) (prompt : option string) : t :=
  {| api_key := api_key;
     model := model;
     language := language;
     response_format := response_format;
     temperature := temperature;
     prompt := prompt;
     api_url := "https://api.groq.com/openai/v1/audio/transcriptions" |}.

Definition SUPPORTED_AUDIO_FORMATS : gset string :=
  {[ ".mp3"; ".mp4"; ".mpeg"; ".mpga"; ".m4a"; ".wav"; ".webm" ]}.

Definition MAX_FILE_SIZE : Z := 25 * 1024 * 1024.

(** The multipart form of transcriber.py:72-87. *)
Definition form_data (self : t) (audio_path data : string) : Request :=
  {| req_url := api_url self;
     req_authorization := "Bearer " +:+ api_key self;
     req_filename := Path.name audio_path;
     req_file := data;
     req_model := model self;
     req_response_format := ResponseFormat_value (response_format self);
     req_language :=
       if truthy (language self) &&
          negb (bool_decide (model self = Some (WhisperModel_value DISTIL_ENGLISH)))
       then language self else None;
     req_temperature := temperature self;
     req_prompt := if truthy (prompt self) then prompt self else None |}.

(** [transcribe_audio] (transcriber.py:52-100). *)
Definition transcribe_audio (O : Outside) (self : t) (audio_path : string)
    : M Transcription :=
  file_size ← stat_size audio_path;
  if MAX_FILE_SIZE <? file_size then raise (FileTooLarge file_size MAX_FILE_SIZE)
  else if negb (bool_decide (lower (Path.suffix audio_path) ∈ SUPPORTED_AUDIO_FORMATS))
  then raise (UnsupportedAudioFormat (Path.suffix audio_path))
  else
    data ← read_file audio_path;
    response ← post O (form_data self audio_path data);
    if negb (status response =? 200)
    then raise (TranscriptionFailed (status response) (body response))
    else match response_format self with
         | TEXT => mret {| tr_text := Some (body response); tr_segments := None |}
         | _ => lift (response_json O (body response))
         end.

(** The loop of a [_save_*] method: the text written so far and, if a
    segment made the body raise, the exception. *)
Fixpoint write_segments (block : Z -> Segment -> result string) (i : Z)
    (segments : list Segment) (written : string) : string * result unit :=
  match segments with
  | [] => (written, Ok tt)
  | segment :: rest =>
      match block i segment with
      | Ok b => write_segments block (i + 1) rest (written +:+ b)
      | Raise e => (written, Raise e)
      end
  end.

(** [with open(output_path, "w") as f: <header>; for ... in
    transcription["segments"]: f.write(block)]: the file is opened (and
    truncated) before the dict is read, and closed when the body raises. *)
Definition save_with (header : string) (block : Z -> Segment -> result string)
    (transcription : Transcription) (output_path : string) : M unit :=
  match tr_segments transcription with
  | None =>
      _ ← write_text output_path header;
      raise (KeyError "segments")
  | Some segments =>
      let '(text, r) := write_segments block 1 segments header in
      _ ← write_text output_path text;
      lift r
  end.

Definition srt_block (i : Z) (segment : Segment) : result string :=
  start ← _format_timestamp (seg_start segment) false;
  end_ ← _format_timestamp (seg_end segment) false;
  Ok (str_int i +:+ nl +:+ start +:+ " --> " +:+ end_ +:+ nl +:+
      seg_text segment +:+ nl +:+ nl).

Definition vtt_block (i : Z) (segment : Segment) : result string :=
  start ← _format_timestamp (seg_start segment) true;
  end_ ← _format_timestamp (seg_end segment) true;
  Ok (start +:+ " --> " +:+ end_ +:+ nl +:+ seg_text segment +:+ nl +:+ nl).

Definition txt_block (i : Z) (segment : Segment) : result string :=
  Ok (seg_text segment +:+ nl).

Definition _save_srt : Transcription -> string -> M unit := save_with "" srt_block.

Definition _save_vtt : Transcription -> string -> M unit :=
  save_with ("WEBVTT" +:+ nl +:+ nl) vtt_block.

Definition _save_txt : Transcription -> string -> M unit := save_with "" txt_block.

(** [save_subtitles] (transcriber.py:102-112). *)
Definition save_subtitles (transcription : Transcription) (output_path : string)
    (format : string) : M unit :=
  if String.eqb format "srt" then _save_srt transcription output_path
  else if String.eqb format "vtt" then _save_vtt transcription output_path
  else if String.eqb format "txt" then _save_txt transcription output_path
  else raise (UnsupportedSubtitleFormat format).

End WhisperTranscriber.

(** ** The progress file: [json.dump] and [json.load] on lists of strings *)

Module Json.

Definition hex_digit (d : N) : ascii :=
  if (d <? 10)%N then ascii_of_N (48 + d) else ascii_of_N (87 + d).

(** [c] as a four-digit lower-case hexadecimal escape. *)
Definition u_escape (c : ascii) : string :=
  let n := N_of_ascii c in
  String "\" (String "u" (String "0" (String "0"
    (String (hex_digit (n / 16)) (String (hex_digit (n mod 16)) EmptyString))))).

(** [json.encoder.py_encode_basestring_ascii] on one character. *)
Definition encode_char (c : ascii) : string :=
  let n := N_of_ascii c in
  if (n =? 34)%N then String "\" (String c EmptyString)
  else if (n =? 92)%N then String "\" (String c EmptyString)
  else if (n =? 8)%N then String "\" (String "b" EmptyString)
  else if (n =? 12)%N then String "\" (String "f" EmptyString)
  else if (n =? 10)%N then String "\" (String "n" EmptyString)
  else if (n =? 13)%N then String "\" (String "r" EmptyString)
  else if (n =? 9)%N then String "\" (String "t" EmptyString)
  else if ((n <? 32) || (126 <? n))%N then u_escape c
  else String c EmptyString.

Fixpoint encode_chars (s : string) : string :=
  match s with
  | EmptyString => EmptyString
  | String c r => encode_char c +:+ encode_chars r
  end.

Definition quote : ascii := "034"%char.

Definition encode_str (s : string) : string :=
  String quote (encode_chars s +:+ String quote EmptyString).

Fixpoint encode_items (l : list string) : string :=
  match l with
  | [] => EmptyString
  | [x] => encode_str x
  | x :: rest => encode_str x +:+ ", " +:+ encode_items rest
  end.

(** What [encode_items (x :: l)] and the closing bracket add after [x]. *)
Fixpoint encode_tail (l : list string) : string :=
  match l with
  | [] => "]"
  | x :: rest => ", " +:+ encode_str x +:+ encode_tail rest
  end.

(** [json.dumps(l)] for a list of strings. *)
Definition dumps (l : list string) : string :=
  String "[" (encode_items l +:+ "]").

Definition hex_value (c : ascii) : option N :=
  let n := N_of_ascii c in
  if ((48 <=? n) && (n <=? 57))%N then Some (n - 48)%N
  else if ((97 <=? n) && (n <=? 102))%N then Some (n - 87)%N
  else if ((65 <=? n) && (n <=? 70))%N then Some (n - 55)%N
  else None.

Definition simple_escape (c : ascii) : option ascii :=
  let n := N_of_ascii c in
  if (n =? 34)%N then Some c
  else if (n =? 92)%N then Some c
  else if (n =? 47)%N then Some c
  else if (n =? 98)%N then Some (ascii_of_N 8)
  else if (n =? 102)%N then Some (ascii_of_N 12)
  else if (n =? 110)%N then Some (ascii_of_N 10)
  else if (n =? 114)%N then Some (ascii_of_N 13)
  else if (n =? 116)%N then Some (ascii_of_N 9)
  else None.

Definition cons_fst (c : ascii) (r : option (string * string)) : option (string * string) :=
  match r with
  | Some (t, rest) => Some (String c t, rest)
  | None => None
  end.

(** [json.decoder.py_scanstring] after the opening quote: the decoded
    string and the input after the closing quote. Escapes above U+00FF
    have no counterpart in byte strings and are refused. *)
Fixpoint scan_string (s : string) : option (string * string) :=
  match s with
  | EmptyString => None
  | String c r =>
      let n := N_of_ascii c in
      if (n =? 34)%N then Some (EmptyString, r)
      else if (n =? 92)%N then
        match r with
        | String e r1 =>
            if (N_of_ascii e =? 117)%N then
              match r1 with
              | String a (String b (String c2 (String d r2))) =>
                  match hex_value a, hex_value b, hex_value c2, hex_value d with
                  | Some 0%N, Some 0%N, Some h, Some l =>
                      cons_fst (ascii_of_N (16 * h + l)) (scan_string r2)
                  | _, _, _, _ => None
                  end
              | _ => None
              end
            else
              match simple_escape e with
              | Some ch => cons_fst ch (scan_string r1)
              | None => None
              end
        | EmptyString => None
        end
      else if (n <? 32)%N then None
      else cons_fst c (scan_string r)
  end.

Definition is_ws (c : ascii) : bool :=
  let n := N_of_ascii c in
  ((n =? 32) || (n =? 9) || (n =? 10) || (n =? 13))%N.

Fixpoint skip_ws (s : string) : string :=
  match s with
  | String c r => if is_ws c then skip_ws r else s
  | EmptyString => EmptyString
  end.

(** The items of an array after its first one: [, "..."]* followed by the
    closing bracket. The fuel bounds the number of items. *)
Fixpoint scan_rest (fuel : nat) (s : string) : option (list string * string) :=
  match fuel with
  | O => None
  | S fuel' =>
      match skip_ws s with
      | String c r =>
          if (N_of_ascii c =? 93)%N then Some ([], r)
          else if (N_of_ascii c =? 44)%N then
            match skip_ws r with
            | String q r1 =>
                if (N_of_ascii q =? 34)%N then
                  match scan_string r1 with
                  | Some (x, r2) =>
                      match scan_rest fuel' r2 with
                      | Some (xs, r3) => Some (x :: xs, r3)
                      | None => None
                      end
                  | None => None
                  end
                else None
            | EmptyString => None
            end
          else None
      | EmptyString => None
      end
  end.

Definition scan_array (s : string) : option (list string * string) :=
  match skip_ws s with
  | String c r =>
      if (N_of_ascii c =? 91)%N then
        match skip_ws r with
        | String q r1 =>
            if (N_of_ascii q =? 93)%N then Some ([], r1)
            else if (N_of_ascii q =? 34)%N then
              match scan_string r1 with
              | Some (x, r2) =>
                  match scan_rest (String.length r2) r2 with
                  | Some (xs, r3) => Some (x :: xs, r3)
                  | None => None
                  end
              | None => None
              end
            else None
        | EmptyString => None
        end
      else None
  | EmptyString => None
  end.

(** [json.loads(s)] where the document is an array of strings; any other
    text is reported as [JSONDecodeError]. *)
Definition loads (s : string) : result (list string) :=
  match scan_array s with
  | Some (l, rest) =>
      match skip_ws rest with
      | EmptyString => Ok l
      | String _ _ => Raise JSONDecodeError
      end
  | None => Raise JSONDecodeError
  end.

End Json.

(** ** processor.py *)

Module VideoProcessor.

Record t : Type := mk {
  config : Config.t;
  transcriber : WhisperTranscriber.t
}.

Definition SUPPORTED_FORMATS : gset string := {[ ".mp4"; ".mkv"; ".avi"; ".mov" ]}.

Definition progress_file : string := "subtitle_progress.json".

(** [_load_progress] (processor.py:138-143). *)
Definition _load_progress : M (gset string) := fun st =>
  match files st !! progress_file with
  | Some f =>
      match Json.loads (content f) with
      | Ok l => (Ok (list_to_set l), st)
      | Raise e => (Raise e, st)
      end
  | None => (Ok ∅, st)
  end.

(** [_save_progress] (processor.py:145-147). *)
Definition _save_progress : M unit :=
  processed ← get_processed;
  write_text progress_file (Json.dumps (elements processed)).

(** [__init__] (processor.py:22-26): the transcriber receives two
    positional arguments, the key and [config.language]. *)
Definition __init__ (config : Config.t) : M t :=
  let transcriber :=
    WhisperTranscriber.__init__ (Config.groq_api_key config) (Config.language config)
      WhisperTranscriber.default_language
      WhisperTranscriber.default_response_format
      WhisperTranscriber.default_temperature
      WhisperTranscriber.default_prompt in
  processed ← _load_progress;
  _ ← set_processed processed;
  mret {| config := config; transcriber := transcriber |}.

(** [_is_supported_video] (processor.py:123-124). *)
Definition _is_supported_video (path : string) : M bool := fun st =>
  (Ok (bool_decide (is_Some (files st !! path)) &&
       bool_decide (lower (Path.suffix path) ∈ SUPPORTED_FORMATS)), st).

Fixpoint is_prefix (p s : string) : bool :=
  match p, s with
  | EmptyString, _ => true
  | String a p', String b s' => bool_decide (a = b) && is_prefix p' s'
  | String _ _, EmptyString => false
  end.

Fixpoint drop (n : nat) (s : string) : string :=
  match n, s with
  | S n', String _ r => drop n' r
  | _, _ => s
  end.

(** [directory.rglob("*")] and [directory.iterdir()], restricted to the
    regular files below the directory. A path that is not a regular file is
    taken to be an existing directory (cli.py checks that the input path
    exists); its listing is read off the paths of the files. *)
Definition below (directory path : string) : bool :=
  is_prefix (directory +:+ "/") path.

Definition child (directory path : string) : bool :=
  below directory path &&
  negb (Path.has_slash (drop (S (String.length directory)) path)).

(** [_collect_video_files] (processor.py:118-121). *)
Definition _collect_video_files (self : t) (directory : string) : M (list string) :=
  fun st =>
    let keep := if Config.recursive (config self) then below directory
                else child directory in
    (Ok (filter (fun f => keep f = true ∧
                          lower (Path.suffix f) ∈ SUPPORTED_FORMATS)
                (elements (dom (files st)))), st).

(** [_extract_audio] (processor.py:99-116). *)
Definition _extract_audio (O : Outside) (video_path audio_path : string) : M unit :=
  fun st =>
    match ffmpeg_run O video_path with
    | Ok audio => (Ok tt, set_files (insert audio_path audio) st)
    | Raise e => (Raise e, st)
    end.

(** The [try] block of [_process_single_video], first part
    (processor.py:68-87): extract, transcribe, write the subtitles, delete
    the audio file. *)
Definition extract_transcribe_save (O : Outside) (self : t) (video_path : string)
    : M unit :=
  audio_path ← lift (Path.with_suffix video_path ".m4a");
  _ ← _extract_audio O video_path audio_path;
  transcription ←
    WhisperTranscriber.transcribe_audio O (transcriber self) audio_path;
  output_path ←
    lift (Path.with_suffix video_path ("." +:+ Config.output_format (config self)));
  _ ← WhisperTranscriber.save_subtitles transcription output_path
        (Config.output_format (config self));
  unlink audio_path.

(** The [try] block, second part (processor.py:89-93). *)
Definition record_success (video_path : string) : M unit :=
  _ ← processed_add video_path;
  _ ← _save_progress;
  _ ← log_record (LogInfo ("Successfully processed: " +:+ video_path));
  progress_update 1.

Definition try_body (O : Outside) (self : t) (video_path : string) : M unit :=
  _ ← extract_transcribe_save O self video_path;
  record_success video_path.

(** The [except Exception as e] block (processor.py:95-97). *)
Definition except_body (video_path : string) (e : exn) : M unit :=
  _ ← log_record (LogFailed video_path e);
  progress_update 1.

(** [_process_single_video] (processor.py:65-97). *)
Definition _process_single_video (O : Outside) (self : t) (video_path : string)
    : M unit :=
  try_except (try_body O self video_path) (except_body video_path).

(** The pool of [process_videos], one worker: the items run to completion
    in submission order. *)
Fixpoint run_pool (O : Outside) (self : t) (items : list string) : M unit :=
  match items with
  | [] => mret tt
  | video_file :: rest =>
      _ ← _process_single_video O self video_file;
      run_pool O self rest
  end.

(** The list comprehension of processor.py:38. *)
Definition unprocessed (video_files : list string) (processed : gset string)
    : list string :=
  filter (fun f => f ∉ processed) video_files.

(** The candidates of [process_videos] (processor.py:29-32). *)
Definition discover (self : t) (input_path : string) : M (list string) := fun st =>
  if bool_decide (is_Some (files st !! input_path))
  then (ok ← _is_supported_video input_path;
        mret (if ok : bool then [input_path] else [])) st
  else _collect_video_files self input_path st.

(** [process_videos] (processor.py:28-63). *)
Definition process_videos (O : Outside) (self : t) (input_path : string) : M unit :=
  video_files ← discover self input_path;
  match video_files with
  | [] => log_record (LogWarning "No supported video files found")
  | _ :: _ =>
      processed ← get_processed;
      match unprocessed video_files processed with
      | [] => log_record (LogInfo "All files have been processed")
      | (_ :: _) as unprocessed_files => run_pool O self unprocessed_files
      end
  end.

End VideoProcessor.

(** ** The worker pool with more than one worker

    With [num_workers > 1] the executor's threads run
    [_process_single_video] side by side on the same processor object. The
    last two statements of a successful item touch shared state in four
    separate steps, none of them guarded by a lock:
    [self._processed_files.add(video_path)]; [open(..., "w")], which
    truncates the file; the list comprehension over the set together with
    [json.dump] into the file object's buffer; and the flush at the end of
    the [with] block, which writes the buffer at the handle's own offset 0. *)

Module Workers.

Inductive pc : Type :=
| AtAdd
| AtOpen
| AtDump
| AtClose (buffer : string)
| Done.

Record worker : Type := mkWorker {
  video_path : string;
  at_ : pc
}.

Record shared : Type := mkShared {
  memory : gset string;   (* self._processed_files *)
  disk : string           (* content of subtitle_progress.json *)
}.

(** Writing [buffer] at offset 0 of a file that holds [old]. *)
Definition write_at_0 (old buffer : string) : string :=
  buffer +:+ VideoProcessor.drop (String.length buffer) old.

(** One step of a worker; [None] when it has finished. *)
Definition step (w : worker) (sh : shared) : option (worker * shared) :=
  match at_ w with
  | AtAdd =>
      Some ({| video_path := video_path w; at_ := AtOpen |},
            {| memory := {[video_path w]} ∪ memory sh; disk := disk sh |})
  | AtOpen =>
      Some ({| video_path := video_path w; at_ := AtDump |},
            {| memory := memory sh; disk := EmptyString |})
  | AtDump =>
      Some ({| video_path := video_path w;
               at_ := AtClose (Json.dumps (elements (memory sh))) |}, sh)
  | AtClose buffer =>
      Some ({| video_path := video_path w; at_ := Done |},
            {| memory := memory sh; disk := write_at_0 (disk sh) buffer |})
  | Done => None
  end.

Definition pool : Type := list worker * shared.

(** Worker number [i] takes a step. *)
Definition step_at (i : nat) (c : pool) : option pool :=
  match fst c !! i with
  | Some w =>
      match step w (snd c) with
      | Some (w', sh') => Some (<[i := w']> (fst c), sh')
      | None => None
      end
  | None => None
  end.

(** A schedule names the worker that moves at each step. *)
Fixpoint run (schedule : list nat) (c : pool) : option pool :=
  match schedule with
  | [] => Some c
  | i :: rest =>
      match step_at i c with
      | Some c' => run rest c'
      | None => None
      end
  end.

Definition start (paths : list string) (sh : shared) : pool :=
  (map (fun p => {| video_path := p; at_ := AtAdd |}) paths, sh).

Definition finished (c : pool) : Prop :=
  Forall (fun w => at_ w = Done) (fst c).

(** The schedule in which each worker in turn runs its four steps without
    interruption, as a lock around them (or a single worker) enforces. *)
Fixpoint serial (i n : nat) : list nat :=
  match n with
  | O => []
  | S n' => [i; i; i; i] ++ serial (S i) n'
  end.

End Workers.

(** ** The spec's reading of the formatter *)

Module TimestampSpec.

(** [x mod k] on exact numbers. *)
Definition Qmod (x : Q) (k : Z) : Q :=
  (x - inject_Z k * inject_Z (Qfloor (x / inject_Z k)))%Q.

Definition hours (seconds : Q) : Z := Qfloor (seconds / 3600).
Definition minutes (seconds : Q) : Z := Qfloor (Qmod seconds 3600 / 60).
Definition whole_seconds (seconds : Q) : Z := Qfloor (Qmod seconds 60).
Definition milliseconds (seconds : Q) : Z :=
  Qfloor ((seconds - inject_Z (Qfloor seconds)) * 1000).

(** A non-negative field, zero-padded to [w] digits. *)
Definition padded (w : nat) (v : Z) : string :=
  zeros (w - String.length (digits (Z.to_N v))) +:+ digits (Z.to_N v).

Definition render (seconds : Q) (vtt : bool) : string :=
  padded 2 (hours seconds) +:+ ":" +:+ padded 2 (minutes seconds) +:+ ":" +:+
  padded 2 (whole_seconds seconds) +:+ (if vtt then "." else ",") +:+
  padded 3 (milliseconds seconds).

End TimestampSpec.

(** The value of a number of an exact type ([int], [Fraction]). *)
Definition exact_value (x : pynum) : option Q :=
  match x with
  | PyInt z => Some (inject_Z z)
  | PyFraction q => Some q
  | PyFloat _ => None
  end.

(** The SRT document of the spec: blocks
    [<index>\n<start> --> <end>\n<text>\n\n], indices counting from [i]. *)
Fixpoint srt_document (i : Z) (blocks : list (string * string * string)) : string :=
  match blocks with
  | [] => EmptyString
  | (start, end_, text) :: rest =>
      str_int i +:+ nl +:+ start +:+ " --> " +:+ end_ +:+ nl +:+ text +:+ nl +:+ nl
      +:+ srt_document (i + 1) rest
  end.

(** ** Concrete inputs used below *)

Definition empty_state : State :=
  {| files := ∅; requests := []; log := []; completed := 0; _processed_files := ∅ |}.

(** A configuration that sets every field the transcriber has. *)
Definition config_text : Config.t :=
  {| Config.groq_api_key := "key";
     Config.model := LARGE_V3;
     Config.output_format := "srt";
     Config.response_format := TEXT;
     Config.num_workers := 2;
     Config.temperature := Some 0.5%float;
     Config.language := Some "en";
     Config.recursive := false;
     Config.log_file := "subtitle_generation.log";
     Config.prompt := Some "Groq" |}.

(** Stand-ins for [int(str)] and [float(str)] on the texts used below. *)
Definition builtins_4 : Builtins :=
  {| int_of_str := fun s => if String.eqb s "4" then Ok 4
                            else Raise (ValueError "invalid literal for int()");
     float_of_str := fun s => if String.eqb s "0.5" then Ok 0.5%float
                              else Raise (ValueError "could not convert string to float") |}.

(** A transcriber asking for plain text, as [WhisperTranscriber("key",
    response_format=ResponseFormat.TEXT)] builds it. *)
Definition transcriber_text : WhisperTranscriber.t :=
  WhisperTranscriber.__init__ "key" WhisperTranscriber.default_model
    WhisperTranscriber.default_language TEXT
    WhisperTranscriber.default_temperature WhisperTranscriber.default_prompt.

(** A service that answers every request with [200] and the text [hello];
    a media tool that fails on [b.mp4] and on [v.mp4]. *)
Definition outside_hello : Outside :=
  {| ffmpeg_run := fun v =>
       if String.eqb v "b.mp4" || String.eqb v "v.mp4"
       then Raise (FFmpegError "no audio stream")
       else Ok (mkFile 4 "RIFF");
     service := fun _ => {| status := 200; body := "hello" |};
     response_json := fun b =>
       Ok {| tr_text := Some b;
             tr_segments := Some [mkSegment (PyInt 0) (PyInt 2) b] |} |}.

(** Three videos in a directory; the media tool fails on the second. *)
Definition state_three : State :=
  {| files := {[ "d/a.mp4" := mkFile 9 "video a"; "d/b.mp4" := mkFile 9 "video b";
                 "d/c.mp4" := mkFile 9 "video c" ]};
     requests := []; log := []; completed := 0; _processed_files := ∅ |}.

Definition outside_three : Outside :=
  {| ffmpeg_run := fun v =>
       if String.eqb v "d/b.mp4" then Raise (FFmpegError "no audio stream")
       else Ok (mkFile 4 "RIFF");
     service := fun _ => {| status := 200; body := "hello" |};
     response_json := fun b =>
       Ok {| tr_text := Some b;
             tr_segments := Some [mkSegment (PyInt 0) (PyInt 2) b] |} |}.


(** The processor object that [VideoProcessor(config)] builds. *)
Definition processor_of (config : Config.t) : VideoProcessor.t :=
  {| VideoProcessor.config := config;
     VideoProcessor.transcriber :=
       WhisperTranscriber.__init__ (Config.groq_api_key config)
         (Config.language config) None VERBOSE_JSON None None |}.




Definition state_audio : State :=
  {| files := {[ "a.m4a" := mkFile 4 "RIFF" ]}; requests := []; log := [];
     completed := 0; _processed_files := ∅ |}.

(** ** Predicates used in the statements *)

(** The start and end stamps of each segment, in SRT mode. *)
Definition stamped (segment : Segment) (stamp : string * string) : Prop :=
  _format_timestamp (seg_start segment) false = Ok stamp.1 /\
  _format_timestamp (seg_end segment) false = Ok stamp.2.

Definition srt_blocks (segments : list Segment) (stamps : list (string * string))
    : list (string * string * string) :=
  zip_with (fun segment stamp => (stamp.1, stamp.2, seg_text segment)) segments stamps.

(** Nothing of the progress bookkeeping differs between two states. *)
Definition same_progress (st st' : State) : Prop :=
  completed st' = completed st /\
  log st' = log st /\
  _processed_files st' = _processed_files st /\
  files st' !! VideoProcessor.progress_file = files st !! VideoProcessor.progress_file.

(** A computation that leaves the progress bookkeeping alone. *)
Definition quiet {A} (m : M A) : Prop := forall st, same_progress st (snd (m st)).


(** The concatenation of the blocks of a document. *)
Fixpoint join (blocks : list string) : string :=
  match blocks with
  | [] => EmptyString
  | b :: rest => b +:+ join rest
  end.

(** The start and end stamps of a segment in VTT mode. *)
Definition stamped_vtt (segment : Segment) (stamp : string * string) : Prop :=
  _format_timestamp (seg_start segment) true = Ok stamp.1 /\
  _format_timestamp (seg_end segment) true = Ok stamp.2.

(** The VTT cue of a segment: [<start> --> <end>\n<text>\n\n]. *)
Definition vtt_cue (segment : Segment) (stamp : string * string) : string :=
  stamp.1 +:+ " --> " +:+ stamp.2 +:+ nl +:+ seg_text segment +:+ nl +:+ nl.

(** A segment whose start or end time does not render, in SRT mode. *)
Definition unrenderable (segment : Segment) (e : exn) : Prop :=
  _format_timestamp (seg_start segment) false = Raise e \/
  (exists start, _format_timestamp (seg_start segment) false = Ok start /\
                 _format_timestamp (seg_end segment) false = Raise e).


(** A computation that leaves the file at [path] alone. *)
Definition keeps {A} (path : string) (m : M A) : Prop :=
  forall st, files (snd (m st)) !! path = files st !! path.




(** The log record of an item: its success line or a failure. *)
Definition outcome_of (item : string) (r : LogRecord) : Prop :=
  r = LogInfo ("Successfully processed: " +:+ item) \/ exists e, r = LogFailed item e.

(** ** cli.py *)

Module Cli.

(** The parsed command line of [process] (cli.py:12-56); [--env] selects the
    file that [load_dotenv] reads and is part of the environment here. *)
Record Args : Type := mkArgs {
  input_path : string;
  groq_api_key : option string;
  model : WhisperModel;
  lang : option string;
  recursive : bool;
  output_format : string;
  response_format : ResponseFormat;
  workers : Z;
  temperature : option float;
  prompt : option string
}.

(** [x or y] for an [Optional[str]] and a [str]. *)
Definition or_str (x : option string) (y : string) : string :=
  match x with
  | Some (String c r) => String c r
  | _ => y
  end.

(** [x or y] for two [Optional[str]]. *)
Definition or_opt (x y : option string) : option string :=
  if truthy x then x else y.

(** Truthiness of an [Optional[float]]: [None] and zeros are false. *)
Definition truthy_float (x : option float) : bool :=
  match x with
  | Some f => negb (f =? 0)%float
  | None => false
  end.

(** The assignments of cli.py:64-72. *)
Definition merge (args : Args) (config : Config.t) : Config.t :=
  {| Config.groq_api_key := or_str (groq_api_key args) (Config.groq_api_key config);
     Config.model := model args;
     Config.output_format := lower (output_format args);
     Config.response_format := response_format args;
     Config.num_workers := Z.max 1 (workers args);
     Config.temperature :=
       if truthy_float (temperature args) then temperature args
       else Config.temperature config;
     Config.language := or_opt (lang args) (Config.language config);
     Config.recursive := recursive args;
     Config.log_file := Config.log_file config;
     Config.prompt := or_opt (prompt args) (Config.prompt config) |}.

(** The configuration after cli.py:62-72. *)
Definition resolved_config (B : Builtins) (env : gmap string string) (args : Args)
    : result Config.t :=
  config ← Config.from_env B env;
  Ok (merge args config).

(** [input_path.exists()]: a regular file, or a directory that holds one. *)
Definition path_exists (path : string) : M bool := fun st =>
  (Ok (bool_decide (is_Some (files st !! path)) ||
       existsb (VideoProcessor.below path) (elements (dom (files st)))), st).

(** How [process] ends: the success line and a normal return, or the error
    line and [typer.Exit(code=1)]. *)
Inductive Outcome : Type :=
| Completed
| Exited (e : exn).


(** The [try] block of [process] (cli.py:61-93). *)
Definition try_body (B : Builtins) (O : Outside) (env : gmap string string)
    (args : Args) : M unit :=
  config ← lift (resolved_config B env args);
  if negb (bool_of_str (Config.groq_api_key config))
  then raise (ValueError "GROQ_API_KEY not found in environment variables or CLI arguments")
  else
    found ← path_exists (input_path args);
    if negb found
    then raise (ValueError ("Input path does not exist: " +:+ input_path args))
    else if negb (bool_decide (lower (output_format args) ∈ ["srt"; "vtt"; "txt"]))
    then raise (ValueError ("Unsupported output format: " +:+ output_format args))
    else
      processor ← VideoProcessor.__init__ config;
      VideoProcessor.process_videos O processor (input_path args).

(** [process] (cli.py:12-97). *)
Definition process (B : Builtins) (O : Outside) (env : gmap string string)
    (args : Args) (st : State) : Outcome * State :=
  match try_body B O env args st with
  | (Ok _, st') => (Completed, st')
  | (Raise e, st') => (Exited e, st')
  end.

End Cli.

(** The command line [subtitles d] with a key and the defaults of the options. *)
Definition args_default : Cli.Args :=
  {| Cli.input_path := "d"; Cli.groq_api_key := Some "key";
     Cli.model := LARGE_V3_TURBO; Cli.lang := None; Cli.recursive := false;
     Cli.output_format := "srt"; Cli.response_format := VERBOSE_JSON;
     Cli.workers := 4; Cli.temperature := None; Cli.prompt := None |}.

(** An environment that sets two of the variables the command line replaces. *)
Definition env_model_format : gmap string string :=
  {[ "MODEL" := "whisper-large-v3"; "OUTPUT_FORMAT" := "vtt" ]}.

(** Two workers and nothing recorded yet. *)
Definition shared_empty : Workers.shared :=
  {| Workers.memory := ∅; Workers.disk := "" |}.

(** A computation that sends no request. *)
Definition silent {A} (m : M A) : Prop :=
  forall st, requests (snd (m st)) = requests st.

(** The request that the pipeline sends for an item: the form built by the
    processor's transcriber for the item's extracted audio artifact. *)
Definition request_of (O : Outside) (self : VideoProcessor.t) (item : string)
    (req : Request) : Prop :=
  exists audio_path audio,
    Path.with_suffix item ".m4a" = Ok audio_path /\
    ffmpeg_run O item = Ok audio /\
    st_size audio <= 26214400 /\
    req = WhisperTranscriber.form_data (VideoProcessor.transcriber self) audio_path
            (content audio).

(** * Properties *)

Ltac munfold :=
  unfold mbind, mret, M_bind, M_ret, result_bind, result_ret, raise, lift,
    try_except in *.

Lemma audio_format_list (x : string) :
  x ∈ WhisperTranscriber.SUPPORTED_AUDIO_FORMATS <->
  x ∈ [".mp3"; ".mp4"; ".mpeg"; ".mpga"; ".m4a"; ".wav"; ".webm"].
Proof. unfold WhisperTranscriber.SUPPORTED_AUDIO_FORMATS. set_unfold. tauto. Qed.

(** ** processor.py:24, the transcriber of the batch engine *)

Lemma init_transcriber (config : Config.t) (st st' : State) (vp : VideoProcessor.t) :
  VideoProcessor.__init__ config st = (Ok vp, st') ->
  VideoProcessor.transcriber vp =
    WhisperTranscriber.__init__ (Config.groq_api_key config) (Config.language config)
      None VERBOSE_JSON None None.
Proof.
  unfold VideoProcessor.__init__. munfold.
  destruct (VideoProcessor._load_progress st) as [[l|e] st1]; simpl; [|discriminate].
  intros H. injection H as <- _. reflexivity.
Qed.

(** C1 (the code departs from it). With model [whisper-large-v3], response
    format [text], temperature [0.5], prompt [Groq] and language [en]
    configured, the transcriber built by [VideoProcessor.__init__] has
    model [en], response format [verbose_json], and neither language,
    temperature nor prompt; so has the request it submits. *)
Theorem transcriber_ignores_config :
  exists vp st,
    VideoProcessor.__init__ config_text empty_state = (Ok vp, st) /\
    let t := VideoProcessor.transcriber vp in
    let req := WhisperTranscriber.form_data t "a.m4a" "RIFF" in
    WhisperTranscriber.model t = Some "en" /\
    WhisperTranscriber.model t <> Some (WhisperModel_value (Config.model config_text)) /\
    WhisperTranscriber.response_format t = VERBOSE_JSON /\
    WhisperTranscriber.response_format t <> Config.response_format config_text /\
    WhisperTranscriber.temperature t = None /\
    Config.temperature config_text = Some 0.5%float /\
    WhisperTranscriber.prompt t = None /\
    Config.prompt config_text = Some "Groq" /\
    req_model req = Some "en" /\
    req_response_format req = "verbose_json" /\
    req_language req = None /\
    req_temperature req = None /\
    req_prompt req = None.
Proof.
  eexists _, _. split; [reflexivity|].
  cbv zeta. repeat split; try reflexivity; discriminate.
Qed.

(** ** config.py:47, the recursive flag *)

(** C9. Whenever [Config.from_env] returns a configuration, its [recursive]
    field is [True] exactly when [RECURSIVE] is unset or set to a non-empty
    string (the string [False] included), and [False] exactly when it is
    set to the empty string. *)
Theorem from_env_recursive (B : Builtins) (env : gmap string string) (c : Config.t) :
  Config.from_env B env = Ok c ->
  (env !! "RECURSIVE" = None -> Config.recursive c = true) /\
  (forall v, env !! "RECURSIVE" = Some v -> v <> "" -> Config.recursive c = true) /\
  (env !! "RECURSIVE" = Some "False" -> Config.recursive c = true) /\
  (Config.recursive c = false <-> env !! "RECURSIVE" = Some "").
Proof.
  unfold Config.from_env. munfold.
  destruct (WhisperModel_of _); [|discriminate].
  destruct (int_of_str B _); [|discriminate].
  destruct (ResponseFormat_of _); [|discriminate].
  destruct (if truthy (env !! "TEMPERATURE") then _ else _); [|discriminate].
  intros [= <-]. cbn [Config.recursive]. unfold getenv.
  destruct (env !! "RECURSIVE") as [[|ch v]|]; cbn.
  - repeat split; try done. intros v [= <-] Hv. done.
  - repeat split; try done.
  - repeat split; try done.
Qed.

Lemma from_env_recursive_witness :
  exists c,
    Config.from_env builtins_4 {[ "RECURSIVE" := "False" ]} = Ok c /\
    Config.recursive c = true.
Proof.
  eexists. split; [vm_compute; reflexivity|].
  refine (proj1 (proj2 (proj2 (from_env_recursive builtins_4
            {[ "RECURSIVE" := "False" ]} _ _))) _).
  - vm_compute. reflexivity.
  - vm_compute. reflexivity.
Defined.

(** ** transcriber.py:52-100, validation and response handling *)

Lemma stat_size_file (path : string) (st : State) (f : File) :
  files st !! path = Some f -> stat_size path st = (Ok (st_size f), st).
Proof. intros H. unfold stat_size. rewrite H. reflexivity. Qed.

Lemma read_file_file (path : string) (st : State) (f : File) :
  files st !! path = Some f -> read_file path st = (Ok (content f), st).
Proof. intros H. unfold read_file. rewrite H. reflexivity. Qed.

(** The result of [transcribe_audio] on an existing file, case by case. *)
Lemma transcribe_audio_cases (O : Outside) (self : WhisperTranscriber.t)
    (audio_path : string) (st : State) (f : File) :
  files st !! audio_path = Some f ->
  WhisperTranscriber.transcribe_audio O self audio_path st =
    if WhisperTranscriber.MAX_FILE_SIZE <? st_size f
    then (Raise (FileTooLarge (st_size f) WhisperTranscriber.MAX_FILE_SIZE), st)
    else if negb (bool_decide (lower (Path.suffix audio_path)
                                 ∈ WhisperTranscriber.SUPPORTED_AUDIO_FORMATS))
    then (Raise (UnsupportedAudioFormat (Path.suffix audio_path)), st)
    else
      let req := WhisperTranscriber.form_data self audio_path (content f) in
      let st' := {| files := files st; requests := requests st ++ [req];
                    log := log st; completed := completed st;
                    _processed_files := _processed_files st |} in
      let response := service O req in
      if negb (status response =? 200)
      then (Raise (TranscriptionFailed (status response) (body response)), st')
      else match WhisperTranscriber.response_format self with
           | TEXT => (Ok {| tr_text := Some (body response); tr_segments := None |}, st')
           | _ => (response_json O (body response), st')
           end.
Proof.
  intros Hf. unfold WhisperTranscriber.transcribe_audio.
  unfold mbind at 1. unfold M_bind at 1. rewrite (stat_size_file _ _ _ Hf).
  destruct (_ <? _); [reflexivity|].
  destruct (negb (bool_decide _)); [reflexivity|].
  unfold mbind at 1. unfold M_bind at 1. rewrite (read_file_file _ _ _ Hf).
  unfold mbind at 1. unfold M_bind at 1. unfold post. cbv zeta.
  destruct (negb (_ =? 200)); [reflexivity|].
  destruct (WhisperTranscriber.response_format self); reflexivity.
Qed.



(** On the dict of the plain-text path, [save_subtitles] raises [KeyError]
    for each of srt, vtt and txt. *)
Lemma save_subtitles_without_segments (text : option string)
    (output_path kind : string) (st : State) :
  kind ∈ ["srt"; "vtt"; "txt"] ->
  fst (WhisperTranscriber.save_subtitles
         {| tr_text := text; tr_segments := None |} output_path kind st)
  = Raise (KeyError "segments").
Proof.
  intros Hkind.
  repeat (apply elem_of_cons in Hkind as [->|Hkind]); try reflexivity.
  inversion Hkind.
Qed.

(** C2 (as the code has it). With response format [text] and an audio file
    that passes validation, a response of status 200 makes
    [transcribe_audio] return the dict with the single key [text] holding
    the whole body, without a segment list. Any other status, other 2xx
    codes included, raises the transcription-failed error. *)
Theorem transcribe_audio_text (O : Outside) (self : WhisperTranscriber.t)
    (audio_path : string) (st : State) (f : File) :
  WhisperTranscriber.response_format self = TEXT ->
  files st !! audio_path = Some f ->
  st_size f <= 26214400 ->
  lower (Path.suffix audio_path)
    ∈ [".mp3"; ".mp4"; ".mpeg"; ".mpga"; ".m4a"; ".wav"; ".webm"] ->
  let response := service O (WhisperTranscriber.form_data self audio_path (content f)) in
  let r := fst (WhisperTranscriber.transcribe_audio O self audio_path st) in
  (status response = 200 ->
   r = Ok {| tr_text := Some (body response); tr_segments := None |}) /\
  (status response <> 200 ->
   r = Raise (TranscriptionFailed (status response) (body response))).
Proof.
  intros Htext Hf Hsize Hext response r. subst r.
  rewrite (transcribe_audio_cases _ _ _ _ _ Hf).
  change WhisperTranscriber.MAX_FILE_SIZE with 26214400.
  destruct (Z.ltb_spec 26214400 (st_size f)) as [Hlt|_]; [lia|].
  rewrite <- audio_format_list in Hext.
  rewrite (bool_decide_eq_true_2 _ Hext). cbn [negb]. cbv zeta.
  fold response. rewrite Htext.
  split.
  - intros ->. reflexivity.
  - intros Hne. destruct (Z.eqb_spec (status response) 200); [contradiction|reflexivity].
Qed.

Lemma transcribe_audio_text_witness :
  fst (WhisperTranscriber.transcribe_audio outside_hello transcriber_text
         "a.m4a" state_audio)
  = Ok {| tr_text := Some "hello"; tr_segments := None |}.
Proof.
  refine (proj1 (transcribe_audio_text outside_hello transcriber_text "a.m4a"
            state_audio (mkFile 4 "RIFF") _ _ _ _) _).
  - reflexivity.
  - vm_compute. reflexivity.
  - vm_compute. discriminate.
  - do 4 apply list_elem_of_further. apply list_elem_of_here.
  - reflexivity.
Defined.

(** C2 as stated fails: for the 200 response [hello] under response format
    [text], the result has no segment list, let alone one of one element. *)
Lemma transcribe_audio_text_no_segments :
  ~ (exists tr segment,
       fst (WhisperTranscriber.transcribe_audio outside_hello transcriber_text
              "a.m4a" state_audio) = Ok tr /\
       tr_segments tr = Some [segment]).
Proof.
  intros (tr & segment & Hr & Hseg).
  vm_compute in Hr. injection Hr as <-. discriminate.
Qed.

(** ** transcriber.py:134-143, timestamps *)

Lemma length_append (a b : string) :
  String.length (a +:+ b) = (String.length a + String.length b)%nat.
Proof. induction a as [|c a IH]; simpl; [reflexivity|]. rewrite IH. reflexivity. Qed.


Lemma format_0d_nonneg (w : nat) (v : Z) :
  0 <= v -> format_0d w v = TimestampSpec.padded w v.
Proof.
  intros Hv. unfold format_0d, TimestampSpec.padded.
  destruct (Z.ltb_spec v 0) as [Hneg|_]; [lia|].
  replace (Z.abs_N v) with (Z.to_N v) by (destruct v; [reflexivity|reflexivity|lia]).
  reflexivity.
Qed.





Lemma Qmod_bounds (x : Q) (k : Z) :
  0 < k ->
  (0 <= TimestampSpec.Qmod x k)%Q /\ (TimestampSpec.Qmod x k < inject_Z k)%Q.
Proof.
  intros Hk. unfold TimestampSpec.Qmod.
  assert (HK : (inject_Z 0 < inject_Z k)%Q) by (rewrite <- Zlt_Qlt; exact Hk).
  change (inject_Z 0) with 0%Q in HK.
  set (K := inject_Z k) in *.
  pose proof (Qfloor_le (x / K)) as Hlo.
  pose proof (Qlt_floor (x / K)) as Hhi.
  rewrite inject_Z_plus in Hhi.
  set (f := inject_Z (Qfloor (x / K))) in *.
  assert (Hx : (x == (x / K) * K)%Q) by (field; lra).
  set (y := (x / K)%Q) in *.
  change (inject_Z 1) with 1%Q in Hhi.
  split; rewrite Hx; nra.
Qed.

Lemma Qfloor_between (x : Q) (a b : Z) :
  (inject_Z a <= x)%Q -> (x < inject_Z b)%Q -> a <= Qfloor x < b.
Proof.
  intros Ha Hb. split.
  - rewrite <- (Qfloor_Z a). apply Qfloor_resp_le, Ha.
  - rewrite Zlt_Qlt. eapply Qle_lt_trans; [apply Qfloor_le|exact Hb].
Qed.

Lemma Qfloor_nonneg (x : Q) : (0 <= x)%Q -> 0 <= Qfloor x.
Proof. intros Hx. rewrite <- (Qfloor_Z 0). apply Qfloor_resp_le, Hx. Qed.

Lemma Qtrunc_nonneg (x : Q) : (0 <= x)%Q -> PyNum.Qtrunc x = Qfloor x.
Proof.
  intros Hx. unfold PyNum.Qtrunc.
  rewrite (proj2 (Qle_bool_iff 0 x) Hx). reflexivity.
Qed.

Lemma Qfrac_bounds (x : Q) :
  (0 <= (x - inject_Z (Qfloor x)) * 1000)%Q /\
  ((x - inject_Z (Qfloor x)) * 1000 < inject_Z 1000)%Q.
Proof.
  pose proof (Qfloor_le x) as Hlo. pose proof (Qlt_floor x) as Hhi.
  rewrite inject_Z_plus in Hhi. change (inject_Z 1) with 1%Q in Hhi.
  change (inject_Z 1000) with 1000%Q. split; lra.
Qed.

Lemma Qfloor_div_Z (a : Z) (p : positive) :
  Qfloor (inject_Z a / inject_Z (Z.pos p)) = a / Z.pos p.
Proof.
  unfold Qfloor, Qdiv, Qmult, Qinv, inject_Z. simpl.
  rewrite Z.mul_1_r. reflexivity.
Qed.

Lemma Qmod_Z (a : Z) (p : positive) :
  (TimestampSpec.Qmod (inject_Z a) (Z.pos p) == inject_Z (a mod Z.pos p))%Q.
Proof.
  unfold TimestampSpec.Qmod. rewrite Qfloor_div_Z.
  rewrite <- inject_Z_mult. unfold Qminus. rewrite <- inject_Z_opp, <- inject_Z_plus.
  rewrite Z.mod_eq by lia. reflexivity.
Qed.

(** The four fields of a non-negative value are in range. *)
Lemma fields_in_range (q : Q) :
  (0 <= q)%Q ->
  0 <= TimestampSpec.hours q /\
  0 <= TimestampSpec.minutes q < 60 /\
  0 <= TimestampSpec.whole_seconds q < 60 /\
  0 <= TimestampSpec.milliseconds q < 1000.
Proof.
  intros Hq.
  destruct (Qmod_bounds q 3600 ltac:(lia)) as [H1 H2].
  destruct (Qmod_bounds q 60 ltac:(lia)) as [H3 H4].
  destruct (Qfrac_bounds q) as [H5 H6].
  change (inject_Z 3600) with 3600%Q in H2.
  repeat split.
  - apply Qfloor_nonneg. apply Qle_shift_div_l; lra.
  - apply Qfloor_nonneg. apply Qle_shift_div_l; lra.
  - apply (Qfloor_between _ 0 60); [change (inject_Z 0) with 0%Q|change (inject_Z 60) with 60%Q].
    + apply Qle_shift_div_l; lra.
    + apply Qlt_shift_div_r; lra.
  - apply Qfloor_nonneg, H3.
  - apply (Qfloor_between _ 0 60); [exact H3|exact H4].
  - apply Qfloor_nonneg, H5.
  - apply (Qfloor_between _ 0 1000); [exact H5|exact H6].
Qed.

Lemma format_timestamp_fraction (q : Q) (vtt : bool) :
  (0 <= q)%Q ->
  _format_timestamp (PyFraction q) vtt = Ok (TimestampSpec.render q vtt).
Proof.
  intros Hq.
  destruct (fields_in_range q Hq) as (Hh & Hm & Hs & Hms).
  destruct (Qmod_bounds q 60 ltac:(lia)) as [H3 _].
  destruct (Qfrac_bounds q) as [H5 _].
  unfold _format_timestamp, PyNum.floordiv, PyNum.mod_, PyNum.to_int,
    PyNum.sub_int, PyNum.mul_int.
  change (3600 =? 0) with false. change (60 =? 0) with false.
  unfold mbind, result_bind. cbv iota beta.
  rewrite (Qtrunc_nonneg q Hq).
  unfold TimestampSpec.Qmod in H3.
  rewrite (Qtrunc_nonneg _ H3).
  change (inject_Z 1000) with 1000%Q.
  rewrite (Qtrunc_nonneg _ H5).
  unfold TimestampSpec.render.
  rewrite <- (format_0d_nonneg 2 (TimestampSpec.hours q)) by lia.
  rewrite <- (format_0d_nonneg 2 (TimestampSpec.minutes q)) by lia.
  rewrite <- (format_0d_nonneg 2 (TimestampSpec.whole_seconds q)) by lia.
  rewrite <- (format_0d_nonneg 3 (TimestampSpec.milliseconds q)) by lia.
  reflexivity.
Qed.

Lemma format_timestamp_int (z : Z) (vtt : bool) :
  0 <= z ->
  _format_timestamp (PyInt z) vtt = Ok (TimestampSpec.render (inject_Z z) vtt).
Proof.
  intros Hz.
  assert (Hq : (0 <= inject_Z z)%Q) by (change 0%Q with (inject_Z 0); rewrite <- Zle_Qle; exact Hz).
  destruct (fields_in_range _ Hq) as (Hh & Hm & Hs & Hms).
  unfold TimestampSpec.render.
  rewrite <- (format_0d_nonneg 2 (TimestampSpec.hours (inject_Z z))) by lia.
  rewrite <- (format_0d_nonneg 2 (TimestampSpec.minutes (inject_Z z))) by lia.
  rewrite <- (format_0d_nonneg 2 (TimestampSpec.whole_seconds (inject_Z z))) by lia.
  rewrite <- (format_0d_nonneg 3 (TimestampSpec.milliseconds (inject_Z z))) by lia.
  assert (E1 : TimestampSpec.hours (inject_Z z) = z / 3600)
    by apply (Qfloor_div_Z z 3600).
  assert (E2 : TimestampSpec.minutes (inject_Z z) = z mod 3600 / 60).
  { unfold TimestampSpec.minutes.
    rewrite (Qfloor_comp _ (inject_Z (z mod 3600) / inject_Z 60)).
    - apply (Qfloor_div_Z (z mod 3600) 60).
    - rewrite (Qmod_Z z 3600). reflexivity. }
  assert (E3 : TimestampSpec.whole_seconds (inject_Z z) = z mod 60).
  { unfold TimestampSpec.whole_seconds.
    rewrite (Qfloor_comp _ _ (Qmod_Z z 60)). apply Qfloor_Z. }
  assert (E4 : TimestampSpec.milliseconds (inject_Z z) = (z - z) * 1000).
  { unfold TimestampSpec.milliseconds. rewrite Qfloor_Z.
    rewrite (Qfloor_comp _ (inject_Z 0)); [rewrite Qfloor_Z; lia|].
    change (inject_Z 0) with 0%Q. ring. }
  rewrite E1, E2, E3, E4. reflexivity.
Qed.



(** Further values in binary64. The double nearest to 4.35 lies below it,
    so its fractional part times 1000 is below 350. *)
Example format_timestamp_binary64 :
  _format_timestamp (PyFloat 0%float) false = Ok "00:00:00,000" /\
  _format_timestamp (PyFloat 2.5%float) false = Ok "00:00:02,500" /\
  _format_timestamp (PyFloat 59.999%float) true = Ok "00:00:59.999" /\
  _format_timestamp (PyFloat 3600%float) false = Ok "01:00:00,000" /\
  _format_timestamp (PyFloat 86399.5%float) true = Ok "23:59:59.500" /\
  _format_timestamp (PyFloat 360000.75%float) false = Ok "100:00:00,750" /\
  _format_timestamp (PyFloat 4.35%float) false = Ok "00:00:04,349" /\
  _format_timestamp (PyFloat infinity) false
    = Raise (ValueError "cannot convert float NaN to integer").
Proof. repeat split; vm_compute; reflexivity. Qed.

(** ** transcriber.py:102-119, the SRT document *)

Lemma append_cons (c : ascii) (a b : string) : String c a +:+ b = String c (a +:+ b).
Proof. reflexivity. Qed.

Lemma append_nil_l (a : string) : "" +:+ a = a.
Proof. reflexivity. Qed.

Lemma append_assoc (a b c : string) : (a +:+ b) +:+ c = a +:+ (b +:+ c).
Proof.
  induction a as [|x a IH]; [reflexivity|].
  rewrite !append_cons, IH. reflexivity.
Qed.

Lemma append_nil_r (a : string) : a +:+ "" = a.
Proof.
  induction a as [|x a IH]; [reflexivity|].
  rewrite append_cons, IH. reflexivity.
Qed.

(** Right-nest appends and push them under the leading characters. *)
Ltac norm_append :=
  repeat (rewrite append_assoc || rewrite append_cons || rewrite append_nil_l).

Lemma write_segments_srt (segments : list Segment) (stamps : list (string * string)) :
  Forall2 stamped segments stamps ->
  forall i written,
    WhisperTranscriber.write_segments WhisperTranscriber.srt_block i segments written
    = (written +:+ srt_document i (srt_blocks segments stamps), Ok tt).
Proof.
  induction 1 as [|segment [start end_] segments stamps [Hs He] _ IH];
    intros i written; simpl.
  - rewrite append_nil_r. reflexivity.
  - unfold WhisperTranscriber.srt_block at 1. simpl in Hs, He. rewrite Hs, He.
    unfold mbind, result_bind. rewrite IH.
    rewrite !append_assoc. reflexivity.
Qed.

(** C6. When every timestamp of the result renders, [save_subtitles] with
    format [srt] writes one block per segment, in order, each being
    [<index>\n<start> --> <end>\n<text>\n\n] with indices 1, 2, ... and the
    stamps of [_format_timestamp] in SRT mode (comma before the
    milliseconds); the result [{start: 0, end: 2, text: "Test subtitle"}]
    yields [1\n00:00:00,000 --> 00:00:02,000\nTest subtitle\n\n]. *)
Theorem save_subtitles_srt :
  (forall (text : option string) (segments : list Segment)
          (stamps : list (string * string)) (output_path : string) (st : State),
     Forall2 stamped segments stamps ->
     WhisperTranscriber.save_subtitles
       {| tr_text := text; tr_segments := Some segments |} output_path "srt" st
     = (Ok tt,
        set_files (insert output_path
                     (text_file (srt_document 1 (srt_blocks segments stamps)))) st) /\
     length (srt_blocks segments stamps) = length segments) /\
  (forall output_path st,
     WhisperTranscriber.save_subtitles
       {| tr_text := None;
          tr_segments := Some [mkSegment (PyInt 0) (PyInt 2) "Test subtitle"] |}
       output_path "srt" st
     = (Ok tt,
        set_files (insert output_path
                     (text_file ("1" +:+ nl +:+ "00:00:00,000 --> 00:00:02,000" +:+ nl
                                 +:+ "Test subtitle" +:+ nl +:+ nl))) st)).
Proof.
  split.
  - intros text segments stamps output_path st Hst. split.
    + unfold WhisperTranscriber.save_subtitles. cbn [String.eqb Ascii.eqb Bool.eqb].
      unfold WhisperTranscriber._save_srt, WhisperTranscriber.save_with.
      cbn [tr_segments].
      rewrite (write_segments_srt _ _ Hst). reflexivity.
    + unfold srt_blocks. rewrite length_zip_with.
      apply Forall2_length in Hst. lia.
  - intros output_path st. reflexivity.
Qed.

Lemma save_subtitles_srt_witness :
  content <$> (files (snd (WhisperTranscriber.save_subtitles
      {| tr_text := None;
         tr_segments := Some [mkSegment (PyInt 0) (PyFraction (5 # 2)) "Hello world"] |}
      "clip.srt" "srt" empty_state)) !! "clip.srt")
  = Some ("1" +:+ nl +:+ "00:00:00,000 --> 00:00:02,500" +:+ nl
          +:+ "Hello world" +:+ nl +:+ nl).
Proof.
  assert (Hst : Forall2 stamped
                  [mkSegment (PyInt 0) (PyFraction (5 # 2)) "Hello world"]
                  [("00:00:00,000", "00:00:02,500")])
    by (constructor; [split; vm_compute; reflexivity|constructor]).
  rewrite (proj1 (proj1 save_subtitles_srt None _ _ "clip.srt" empty_state Hst)).
  vm_compute. reflexivity.
Defined.

(** ** processor.py:138-147, the progress file *)

Lemma scan_string_char (c : ascii) (tail : string) :
  Json.scan_string (Json.encode_char c +:+ tail)
  = Json.cons_fst c (Json.scan_string tail).
Proof. destruct c as [[] [] [] [] [] [] [] []]; reflexivity. Qed.

Lemma scan_string_encode (s rest : string) :
  Json.scan_string (Json.encode_chars s +:+ String Json.quote rest) = Some (s, rest).
Proof.
  induction s as [|c s IH]; simpl Json.encode_chars.
  - reflexivity.
  - rewrite append_assoc, scan_string_char, IH. reflexivity.
Qed.

Lemma scan_rest_step (fuel : nat) (r : string) :
  Json.scan_rest (S fuel) (String "," (String " " (String Json.quote r)))
  = match Json.scan_string r with
    | Some (x, r2) =>
        match Json.scan_rest fuel r2 with
        | Some (xs, r3) => Some (x :: xs, r3)
        | None => None
        end
    | None => None
    end.
Proof. reflexivity. Qed.

Lemma scan_array_step (r : string) :
  Json.scan_array (String "[" (String Json.quote r))
  = match Json.scan_string r with
    | Some (x, r2) =>
        match Json.scan_rest (String.length r2) r2 with
        | Some (xs, r3) => Some (x :: xs, r3)
        | None => None
        end
    | None => None
    end.
Proof. reflexivity. Qed.

Lemma scan_rest_tail (l : list string) :
  forall fuel rest, (length l < fuel)%nat ->
  Json.scan_rest fuel (Json.encode_tail l +:+ rest) = Some (l, rest).
Proof.
  induction l as [|x l IH]; intros fuel rest Hfuel;
    (destruct fuel as [|fuel]; [simpl in Hfuel; lia|]).
  - reflexivity.
  - simpl in Hfuel.
    change (Json.encode_tail (x :: l))
      with (", " +:+ Json.encode_str x +:+ Json.encode_tail l).
    unfold Json.encode_str.
    norm_append.
    rewrite scan_rest_step, scan_string_encode, IH by lia. reflexivity.
Qed.

Lemma length_encode_tail (l : list string) :
  (length l < String.length (Json.encode_tail l))%nat.
Proof.
  induction l as [|x l IH]; simpl; [lia|].
  rewrite length_append. lia.
Qed.

Lemma encode_items_tail (x : string) (l : list string) :
  Json.encode_items (x :: l) +:+ "]" = Json.encode_str x +:+ Json.encode_tail l.
Proof.
  revert x. induction l as [|y l IH]; intros x.
  - reflexivity.
  - change (Json.encode_items (x :: y :: l))
      with (Json.encode_str x +:+ ", " +:+ Json.encode_items (y :: l)).
    rewrite !append_assoc. rewrite IH. reflexivity.
Qed.

(** [json.loads(json.dumps(l)) == l] for every list of strings. *)
Lemma loads_dumps (l : list string) : Json.loads (Json.dumps l) = Ok l.
Proof.
  destruct l as [|x l]; [reflexivity|].
  unfold Json.dumps. rewrite encode_items_tail.
  unfold Json.loads, Json.encode_str.
  norm_append.
  rewrite scan_array_step, scan_string_encode.
  pose proof (scan_rest_tail l _ "" (length_encode_tail l)) as Htail.
  rewrite append_nil_r in Htail. rewrite Htail. reflexivity.
Qed.





(** ** processor.py:65-97, the per-item pipeline *)

Lemma same_progress_refl (st : State) : same_progress st st.
Proof. repeat split. Qed.

Lemma same_progress_trans (a b c : State) :
  same_progress a b -> same_progress b c -> same_progress a c.
Proof.
  intros (H1 & H2 & H3 & H4) (K1 & K2 & K3 & K4).
  repeat split; congruence.
Qed.

Lemma quiet_bind {A B} (m : M A) (k : A -> M B) :
  quiet m -> (forall a st st', m st = (Ok a, st') -> quiet (k a)) -> quiet (m ≫= k).
Proof.
  intros Hm Hk st. unfold mbind, M_bind.
  specialize (Hm st). destruct (m st) as [[a|e] st1] eqn:E; cbn [snd] in *.
  - eapply same_progress_trans; [exact Hm|]. exact (Hk a st st1 E st1).
  - exact Hm.
Qed.

Lemma quiet_lift {A} (r : result A) : quiet (lift r).
Proof. intros st. apply same_progress_refl. Qed.

Lemma quiet_raise {A} (e : exn) : quiet (raise e : M A).
Proof. intros st. apply same_progress_refl. Qed.

Lemma quiet_ret {A} (a : A) : quiet (mret a : M A).
Proof. intros st. apply same_progress_refl. Qed.

Lemma quiet_stat_size (path : string) : quiet (stat_size path).
Proof. intros st. unfold stat_size. destruct (files st !! path); apply same_progress_refl. Qed.

Lemma quiet_read_file (path : string) : quiet (read_file path).
Proof. intros st. unfold read_file. destruct (files st !! path); apply same_progress_refl. Qed.

Lemma quiet_post (O : Outside) (req : Request) : quiet (post O req).
Proof. intros st. repeat split. Qed.

Lemma quiet_write_text (path text : string) :
  path <> VideoProcessor.progress_file -> quiet (write_text path text).
Proof.
  intros Hne st. repeat split. cbn. apply lookup_insert_ne, Hne.
Qed.

Lemma quiet_unlink (path : string) :
  path <> VideoProcessor.progress_file -> quiet (unlink path).
Proof.
  intros Hne st. unfold unlink. destruct (files st !! path).
  - repeat split. cbn. apply lookup_delete_ne, Hne.
  - apply same_progress_refl.
Qed.

Lemma quiet_extract_audio (O : Outside) (video_path audio_path : string) :
  audio_path <> VideoProcessor.progress_file ->
  quiet (VideoProcessor._extract_audio O video_path audio_path).
Proof.
  intros Hne st. unfold VideoProcessor._extract_audio.
  destruct (ffmpeg_run O video_path).
  - repeat split. cbn. apply lookup_insert_ne, Hne.
  - apply same_progress_refl.
Qed.

Lemma quiet_transcribe_audio (O : Outside) (self : WhisperTranscriber.t)
    (audio_path : string) :
  quiet (WhisperTranscriber.transcribe_audio O self audio_path).
Proof.
  unfold WhisperTranscriber.transcribe_audio.
  apply quiet_bind; [apply quiet_stat_size|]. intros size _ _ _.
  destruct (_ <? _); [apply quiet_raise|].
  destruct (negb (bool_decide _)); [apply quiet_raise|].
  apply quiet_bind; [apply quiet_read_file|]. intros data _ _ _.
  apply quiet_bind; [apply quiet_post|]. intros response _ _ _.
  destruct (negb (_ =? 200)); [apply quiet_raise|].
  destruct (WhisperTranscriber.response_format self);
    first [apply quiet_lift | apply quiet_ret].
Qed.

Lemma quiet_save_with (header : string) (block : Z -> Segment -> result string)
    (transcription : Transcription) (output_path : string) :
  output_path <> VideoProcessor.progress_file ->
  quiet (WhisperTranscriber.save_with header block transcription output_path).
Proof.
  intros Hne. unfold WhisperTranscriber.save_with.
  destruct (tr_segments transcription) as [segments|].
  - destruct (WhisperTranscriber.write_segments block 1 segments header) as [text r].
    apply quiet_bind; [apply quiet_write_text, Hne|]. intros; apply quiet_lift.
  - apply quiet_bind; [apply quiet_write_text, Hne|]. intros; apply quiet_raise.
Qed.

Lemma quiet_save_subtitles (transcription : Transcription) (output_path kind : string) :
  (kind ∈ ["srt"; "vtt"; "txt"] -> output_path <> VideoProcessor.progress_file) ->
  quiet (WhisperTranscriber.save_subtitles transcription output_path kind).
Proof.
  intros Hne. unfold WhisperTranscriber.save_subtitles.
  destruct (String.eqb_spec kind "srt") as [->|_].
  { apply quiet_save_with, Hne. set_solver. }
  destruct (String.eqb_spec kind "vtt") as [->|_].
  { apply quiet_save_with, Hne. set_solver. }
  destruct (String.eqb_spec kind "txt") as [->|_].
  { apply quiet_save_with, Hne. set_solver. }
  apply quiet_raise.
Qed.

Lemma last_char_append (x s : string) :
  s <> "" -> last_char (x +:+ s) = last_char s.
Proof.
  intros Hs. induction x as [|c x IH]; [reflexivity|].
  rewrite append_cons. cbn [last_char]. rewrite IH.
  destruct (x +:+ s) eqn:E; [|reflexivity].
  destruct x; [rewrite append_nil_l in E; contradiction|discriminate].
Qed.

Lemma with_suffix_last (p suf q : string) :
  suf <> "" -> Path.with_suffix p suf = Ok q -> last_char q = last_char suf.
Proof.
  intros Hs. unfold Path.with_suffix. destruct (Path.name p); [discriminate|].
  intros [= <-]. apply last_char_append, Hs.
Qed.

Lemma quiet_extract_transcribe_save (O : Outside) (self : VideoProcessor.t)
    (video_path : string) :
  quiet (VideoProcessor.extract_transcribe_save O self video_path).
Proof.
  unfold VideoProcessor.extract_transcribe_save.
  apply quiet_bind; [apply quiet_lift|]. intros audio_path st0 st0' Haudio.
  assert (Ha : audio_path <> VideoProcessor.progress_file).
  { injection Haudio as Haudio _. intros ->.
    apply with_suffix_last in Haudio; [discriminate|discriminate]. }
  apply quiet_bind; [apply quiet_extract_audio, Ha|]. intros _ _ _ _.
  apply quiet_bind; [apply quiet_transcribe_audio|]. intros transcription _ _ _.
  apply quiet_bind; [apply quiet_lift|]. intros output_path st1 st1' Hout.
  apply quiet_bind; [|intros; apply quiet_unlink, Ha].
  apply quiet_save_subtitles. intros Hkind ->.
  injection Hout as Hout _.
  apply with_suffix_last in Hout; [|discriminate].
  repeat (apply elem_of_cons in Hkind as [Hk|Hkind]; [rewrite Hk in Hout; discriminate|]).
  inversion Hkind.
Qed.

(** The outcome of [_process_single_video] when the first part raises. *)
Lemma process_failure (O : Outside) (self : VideoProcessor.t) (video_path : string)
    (st st1 : State) (e : exn) :
  VideoProcessor.extract_transcribe_save O self video_path st = (Raise e, st1) ->
  VideoProcessor._process_single_video O self video_path st
  = (Ok tt,
     {| files := files st1; requests := requests st1;
        log := log st1 ++ [LogFailed video_path e];
        completed := completed st1 + 1;
        _processed_files := _processed_files st1 |}).
Proof.
  intros H. unfold VideoProcessor._process_single_video, try_except,
    VideoProcessor.try_body. unfold mbind at 1. unfold M_bind at 1.
  rewrite H. reflexivity.
Qed.

(** The outcome of [_process_single_video] when the first part succeeds. *)
Lemma process_success (O : Outside) (self : VideoProcessor.t) (video_path : string)
    (st st1 : State) (u : unit) :
  VideoProcessor.extract_transcribe_save O self video_path st = (Ok u, st1) ->
  VideoProcessor._process_single_video O self video_path st
  = (Ok tt,
     {| files := <[VideoProcessor.progress_file :=
                     text_file (Json.dumps (elements ({[video_path]} ∪ _processed_files st1)))]>
                 (files st1);
        requests := requests st1;
        log := log st1 ++ [LogInfo ("Successfully processed: " +:+ video_path)];
        completed := completed st1 + 1;
        _processed_files := {[video_path]} ∪ _processed_files st1 |}).
Proof.
  intros H. unfold VideoProcessor._process_single_video, try_except,
    VideoProcessor.try_body. unfold mbind at 1. unfold M_bind at 1.
  rewrite H. reflexivity.
Qed.

Lemma extraction_failure (O : Outside) (self : VideoProcessor.t) (video_path : string)
    (st : State) (e : exn) :
  ffmpeg_run O video_path = Raise e ->
  exists e', VideoProcessor.extract_transcribe_save O self video_path st = (Raise e', st).
Proof.
  intros H. unfold VideoProcessor.extract_transcribe_save.
  unfold mbind at 1. unfold M_bind at 1. unfold lift.
  destruct (Path.with_suffix video_path ".m4a") as [audio_path|e0]; [|eauto].
  unfold mbind at 1. unfold M_bind at 1. unfold VideoProcessor._extract_audio.
  rewrite H. eauto.
Qed.

(** One item, whatever happens to it. *)
Lemma process_single_video_outcome (O : Outside) (self : VideoProcessor.t)
    (video_path : string) (st : State) :
  let out := VideoProcessor._process_single_video O self video_path st in
  fst out = Ok tt /\
  completed (snd out) = completed st + 1 /\
  (forall e st1,
     VideoProcessor.extract_transcribe_save O self video_path st = (Raise e, st1) ->
     _processed_files (snd out) = _processed_files st /\
     files (snd out) !! VideoProcessor.progress_file
       = files st !! VideoProcessor.progress_file /\
     log (snd out) = log st ++ [LogFailed video_path e]) /\
  (forall u st1,
     VideoProcessor.extract_transcribe_save O self video_path st = (Ok u, st1) ->
     _processed_files (snd out) = {[video_path]} ∪ _processed_files st /\
     files (snd out) !! VideoProcessor.progress_file
       = Some (text_file (Json.dumps (elements ({[video_path]} ∪ _processed_files st)))) /\
     log (snd out) = log st ++ [LogInfo ("Successfully processed: " +:+ video_path)]).
Proof.
  intros out. subst out.
  pose proof (quiet_extract_transcribe_save O self video_path st) as (Hc & Hl & Hp & Hf).
  destruct (VideoProcessor.extract_transcribe_save O self video_path st)
    as [[u|e] st1] eqn:E; cbn [snd] in *.
  - rewrite (process_success _ _ _ _ _ _ E). cbn [fst snd completed _processed_files files log].
    split; [reflexivity|]. split; [lia|]. split.
    + intros e' st1' [=].
    + intros u' st1' [= _ <-]. rewrite Hp, Hl.
      split; [reflexivity|]. split; [apply lookup_insert_eq|reflexivity].
  - rewrite (process_failure _ _ _ _ _ _ E). cbn [fst snd completed _processed_files files log].
    split; [reflexivity|]. split; [lia|]. split.
    + intros e' st1' [= <- <-]. rewrite Hp, Hl, Hf. repeat split.
    + intros u' st1' [=].
Qed.




(** ** processor.py:28-63, filtering and re-invocation *)





Lemma load_progress_state (st : State) :
  snd (VideoProcessor._load_progress st) = st.
Proof.
  unfold VideoProcessor._load_progress.
  destruct (files st !! VideoProcessor.progress_file) as [f|]; [|reflexivity].
  destruct (Json.loads (content f)); reflexivity.
Qed.






Lemma discover_total (self : VideoProcessor.t) (input_path : string) (st : State) :
  exists video_files, VideoProcessor.discover self input_path st = (Ok video_files, st).
Proof.
  unfold VideoProcessor.discover. destruct (bool_decide _).
  - unfold mbind, M_bind, VideoProcessor._is_supported_video. cbv beta iota.
    eexists. reflexivity.
  - unfold VideoProcessor._collect_video_files. eexists. reflexivity.
Qed.

(** What [process_videos] does from the candidates on. *)
Lemma process_videos_cases (O : Outside) (self : VideoProcessor.t) (input_path : string)
    (st : State) (video_files : list string) :
  VideoProcessor.discover self input_path st = (Ok video_files, st) ->
  VideoProcessor.process_videos O self input_path st =
    match video_files with
    | [] => log_record (LogWarning "No supported video files found") st
    | _ :: _ =>
        match VideoProcessor.unprocessed video_files (_processed_files st) with
        | [] => log_record (LogInfo "All files have been processed") st
        | (_ :: _) as unprocessed_files => VideoProcessor.run_pool O self unprocessed_files st
        end
    end.
Proof.
  intros H. unfold VideoProcessor.process_videos.
  unfold mbind at 1. unfold M_bind at 1. rewrite H.
  destruct video_files as [|f l]; [reflexivity|].
  unfold mbind at 1. unfold M_bind at 1. unfold get_processed.
  destruct (VideoProcessor.unprocessed (f :: l) (_processed_files st)); reflexivity.
Qed.


(** [__init__] on a state whose progress file loads. *)
Lemma init_loaded (config : Config.t) (st : State) (s : gset string) :
  VideoProcessor._load_progress st = (Ok s, st) ->
  VideoProcessor.__init__ config st
  = (Ok {| VideoProcessor.config := config;
           VideoProcessor.transcriber :=
             WhisperTranscriber.__init__ (Config.groq_api_key config)
               (Config.language config) None VERBOSE_JSON None None |},
     snd (set_processed s st)).
Proof.
  intros H. unfold VideoProcessor.__init__. unfold mbind at 1. unfold M_bind at 1.
  rewrite H. reflexivity.
Qed.






(** ** processor.py:89-90 under several workers *)

Lemma drop_empty (n : nat) : VideoProcessor.drop n "" = "".
Proof. destruct n; reflexivity. Qed.

Lemma write_at_0_empty (buffer : string) : Workers.write_at_0 "" buffer = buffer.
Proof. unfold Workers.write_at_0. rewrite drop_empty. apply append_nil_r. Qed.

(** A worker that runs its four steps without interruption. *)
Lemma run_uninterrupted (pre rest : list Workers.worker) (p : string)
    (sh : Workers.shared) (schedule : list nat) :
  let i := length pre in
  let memory' := {[p]} ∪ Workers.memory sh in
  Workers.run ([i; i; i; i] ++ schedule)
    (pre ++ {| Workers.video_path := p; Workers.at_ := Workers.AtAdd |} :: rest, sh)
  = Workers.run schedule
      (pre ++ {| Workers.video_path := p; Workers.at_ := Workers.Done |} :: rest,
       {| Workers.memory := memory';
          Workers.disk := Json.dumps (elements memory') |}).
Proof.
  intros i memory'. subst i.
  assert (Hstep : forall w w' sh0 sh1 sched,
            Workers.step w sh0 = Some (w', sh1) ->
            Workers.run (length pre :: sched) (pre ++ w :: rest, sh0)
            = Workers.run sched (pre ++ w' :: rest, sh1)).
  { intros w w' sh0 sh1 sched Hs. cbn [Workers.run]. unfold Workers.step_at. cbn [fst snd].
    rewrite (list_lookup_middle pre rest w (length pre) eq_refl), Hs.
    rewrite insert_app_r_alt by lia. rewrite Nat.sub_diag. reflexivity. }
  cbn [app].
  erewrite Hstep by reflexivity. erewrite Hstep by reflexivity.
  erewrite Hstep by reflexivity. erewrite Hstep by reflexivity.
  cbn [Workers.memory Workers.disk Workers.video_path]. rewrite write_at_0_empty. reflexivity.
Qed.

Lemma run_serial (paths : list string) :
  forall (pre : list Workers.worker) (sh : Workers.shared),
  exists sh',
    Workers.run (Workers.serial (length pre) (length paths))
      (pre ++ map (fun p => {| Workers.video_path := p; Workers.at_ := Workers.AtAdd |}) paths,
       sh)
    = Some (pre ++ map (fun p => {| Workers.video_path := p; Workers.at_ := Workers.Done |}) paths,
            sh') /\
    Workers.memory sh' = list_to_set paths ∪ Workers.memory sh /\
    (paths <> [] -> Workers.disk sh' = Json.dumps (elements (Workers.memory sh'))).
Proof.
  induction paths as [|p paths IH]; intros pre sh.
  - exists sh. split; [reflexivity|]. split; [|intros H; destruct H; reflexivity].
    apply set_eq. intros x. set_unfold. tauto.
  - cbn [length Workers.serial map]. rewrite run_uninterrupted.
    set (sh1 := {| Workers.memory := {[p]} ∪ Workers.memory sh; Workers.disk := _ |}).
    destruct (IH (pre ++ [{| Workers.video_path := p; Workers.at_ := Workers.Done |}]) sh1)
      as (sh' & Hrun & Hmem & Hdisk).
    rewrite length_app in Hrun. cbn [length] in Hrun.
    rewrite Nat.add_1_r in Hrun. rewrite <- !app_assoc in Hrun. cbn [app] in Hrun.
    exists sh'. split; [exact Hrun|]. split.
    + rewrite Hmem. cbn [Workers.memory sh1 list_to_set]. subst sh1. cbn [Workers.memory].
      apply set_eq. intros x. set_unfold. tauto.
    + intros _. destruct paths as [|q paths].
      * cbn [length Workers.serial Workers.run] in Hrun. injection Hrun as <-.
        reflexivity.
      * apply Hdisk. discriminate.
Qed.

(** C10 (as the code has it). The code takes no lock: the insert into the
    shared set, the truncating open, the dump of the set and the flush are
    separate steps of each worker. In every schedule in which each worker
    runs these four steps without interruption, as with a single worker, all
    workers finish, the shared set holds every successful path, and the
    progress file is the dump of that set, which loads back to it. *)
Theorem serial_persist_complete (paths : list string) (sh : Workers.shared) :
  paths <> [] ->
  exists c,
    Workers.run (Workers.serial 0 (length paths)) (Workers.start paths sh) = Some c /\
    Workers.finished c /\
    Workers.memory (snd c) = list_to_set paths ∪ Workers.memory sh /\
    Json.loads (Workers.disk (snd c)) = Ok (elements (Workers.memory (snd c))) /\
    (forall p, p ∈ paths -> p ∈ elements (Workers.memory (snd c))).
Proof.
  intros Hne. destruct (run_serial paths [] sh) as (sh' & Hrun & Hmem & Hdisk).
  cbn [length app] in Hrun.
  eexists. split; [exact Hrun|]. cbn [fst snd]. split; [|split; [exact Hmem|split]].
  - unfold Workers.finished. cbn [fst]. apply Forall_forall. intros w Hw.
    apply list_elem_of_fmap in Hw as (p & -> & _). reflexivity.
  - rewrite (Hdisk Hne). apply loads_dumps.
  - intros p Hp. apply elem_of_elements. rewrite Hmem.
    apply elem_of_union_l, elem_of_list_to_set, Hp.
Qed.

Lemma serial_persist_complete_witness :
  exists c,
    Workers.run (Workers.serial 0 2)
      (Workers.start ["a"; "b"] {| Workers.memory := ∅; Workers.disk := "" |}) = Some c /\
    Json.loads (Workers.disk (snd c)) = Ok (elements (Workers.memory (snd c))).
Proof.
  destruct (serial_persist_complete ["a"; "b"]
              {| Workers.memory := ∅; Workers.disk := "" |})
    as (c & Hrun & _ & _ & Hload & _).
  - discriminate.
  - exists c. split; [exact Hrun|exact Hload].
Defined.

(** C10 as stated fails: two workers that both succeed can interleave so
    that the first flushes its older, shorter dump over the file the second
    has written; both are finished, the shared set holds both paths, and the
    progress file is no longer a JSON document. *)
Lemma interleaved_persist_garbled :
  exists c,
    Workers.run [0; 0; 0; 1; 1; 1; 1; 0]%nat
      (Workers.start ["a"; "b"] {| Workers.memory := ∅; Workers.disk := "" |}) = Some c /\
    Workers.finished c /\
    Workers.memory (snd c) = {[ "a"; "b" ]} /\
    Workers.disk (snd c) <> Json.dumps (elements (Workers.memory (snd c))) /\
    Json.loads (Workers.disk (snd c)) = Raise JSONDecodeError.
Proof.
  eexists. split; [vm_compute; reflexivity|]. cbn [fst snd].
  split; [repeat constructor|].
  split; [vm_compute; reflexivity|].
  split; [vm_compute; discriminate|vm_compute; reflexivity].
Qed.

(** ** transcriber.py:121-132, the VTT and TXT documents *)

Lemma write_segments_blocks (block : Z -> Segment -> result string)
    (segments : list Segment) (outs : list string) :
  Forall2 (fun segment out => forall i, block i segment = Ok out) segments outs ->
  forall i written,
    WhisperTranscriber.write_segments block i segments written
    = (written +:+ join outs, Ok tt).
Proof.
  induction 1 as [|segment out segments outs Hb _ IH]; intros i written;
    cbn [WhisperTranscriber.write_segments join].
  - rewrite append_nil_r. reflexivity.
  - rewrite Hb, IH, append_assoc. reflexivity.
Qed.

(** X1. When every timestamp renders in VTT mode, [save_subtitles] with
    format [vtt] writes the header line [WEBVTT], a blank line, and then one
    cue [<start> --> <end>\n<text>\n\n] per segment, in order and without
    index numbers. *)
Theorem save_subtitles_vtt (text : option string) (segments : list Segment)
    (stamps : list (string * string)) (output_path : string) (st : State) :
  Forall2 stamped_vtt segments stamps ->
  WhisperTranscriber.save_subtitles
    {| tr_text := text; tr_segments := Some segments |} output_path "vtt" st
  = (Ok tt,
     set_files (insert output_path
                  (text_file ("WEBVTT" +:+ nl +:+ nl +:+
                              join (zip_with vtt_cue segments stamps)))) st).
Proof.
  intros Hst.
  unfold WhisperTranscriber.save_subtitles. cbn [String.eqb Ascii.eqb Bool.eqb].
  unfold WhisperTranscriber._save_vtt, WhisperTranscriber.save_with. cbn [tr_segments].
  rewrite (write_segments_blocks WhisperTranscriber.vtt_block segments
             (zip_with vtt_cue segments stamps)).
  - rewrite !append_assoc. reflexivity.
  - induction Hst as [|segment [start end_] segments stamps [Hs He] _ IH];
      cbn [zip_with]; constructor; [|exact IH].
    intros i. unfold WhisperTranscriber.vtt_block, vtt_cue.
    cbn [fst snd] in *. rewrite Hs, He. reflexivity.
Qed.

Lemma save_subtitles_vtt_witness :
  content <$> (files (snd (WhisperTranscriber.save_subtitles
      {| tr_text := None;
         tr_segments := Some [mkSegment (PyInt 0) (PyFraction (5 # 2)) "Hello world"] |}
      "clip.vtt" "vtt" empty_state)) !! "clip.vtt")
  = Some ("WEBVTT" +:+ nl +:+ nl +:+ "00:00:00.000 --> 00:00:02.500" +:+ nl
          +:+ "Hello world" +:+ nl +:+ nl).
Proof.
  assert (Hst : Forall2 stamped_vtt
                  [mkSegment (PyInt 0) (PyFraction (5 # 2)) "Hello world"]
                  [("00:00:00.000", "00:00:02.500")])
    by (constructor; [split; vm_compute; reflexivity|constructor]).
  rewrite (save_subtitles_vtt None _ _ "clip.vtt" empty_state Hst).
  vm_compute. reflexivity.
Defined.

(** X2. [save_subtitles] with format [txt] never raises on a result that has
    a segment list: it writes each segment's text followed by a newline, in
    order, whatever the start and end times are (they are not read, so even
    times that no timestamp can render are accepted). *)
Theorem save_subtitles_txt (text : option string) (segments : list Segment)
    (output_path : string) (st : State) :
  WhisperTranscriber.save_subtitles
    {| tr_text := text; tr_segments := Some segments |} output_path "txt" st
  = (Ok tt,
     set_files (insert output_path
                  (text_file (join (map (fun segment => seg_text segment +:+ nl)
                                        segments)))) st).
Proof.
  unfold WhisperTranscriber.save_subtitles. cbn [String.eqb Ascii.eqb Bool.eqb].
  unfold WhisperTranscriber._save_txt, WhisperTranscriber.save_with. cbn [tr_segments].
  rewrite (write_segments_blocks WhisperTranscriber.txt_block segments
             (map (fun segment => seg_text segment +:+ nl) segments)).
  - reflexivity.
  - induction segments as [|segment segments IH]; cbn [map]; constructor;
      [intros i; reflexivity|exact IH].
Qed.

(** The blocks written before a segment that does not render. *)
Lemma write_segments_srt_until (good : list Segment) (stamps : list (string * string))
    (bad : Segment) (rest : list Segment) (e : exn) :
  Forall2 stamped good stamps ->
  unrenderable bad e ->
  forall i written,
    WhisperTranscriber.write_segments WhisperTranscriber.srt_block i
      (good ++ bad :: rest) written
    = (written +:+ srt_document i (srt_blocks good stamps), Raise e).
Proof.
  intros Hgood Hbad.
  induction Hgood as [|segment [start end_] good stamps [Hs He] _ IH];
    intros i written.
  - cbn [app WhisperTranscriber.write_segments srt_blocks zip_with srt_document].
    rewrite append_nil_r.
    assert (Hb : WhisperTranscriber.srt_block i bad = Raise e).
    { unfold WhisperTranscriber.srt_block.
      destruct Hbad as [Hb|(start & Hb1 & Hb2)].
      - rewrite Hb. reflexivity.
      - rewrite Hb1, Hb2. reflexivity. }
    rewrite Hb. reflexivity.
  - cbn [app WhisperTranscriber.write_segments].
    unfold WhisperTranscriber.srt_block at 1. cbn [fst snd] in Hs, He. rewrite Hs, He.
    unfold mbind, result_bind. rewrite IH.
    cbn [srt_blocks zip_with srt_document fst snd].
    fold (srt_blocks good stamps). rewrite !append_assoc. reflexivity.
Qed.

(** X3. When a segment's start or end time does not render (an infinite or
    NaN time), [save_subtitles] with format [srt] raises that segment's
    exception and leaves at the output path a truncated document: exactly
    the blocks of the segments before it, none of those after it. *)
Theorem save_subtitles_srt_truncated (text : option string) (good : list Segment)
    (stamps : list (string * string)) (bad : Segment) (rest : list Segment)
    (e : exn) (output_path : string) (st : State) :
  Forall2 stamped good stamps ->
  unrenderable bad e ->
  WhisperTranscriber.save_subtitles
    {| tr_text := text; tr_segments := Some (good ++ bad :: rest) |}
    output_path "srt" st
  = (Raise e,
     set_files (insert output_path
                  (text_file (srt_document 1 (srt_blocks good stamps)))) st).
Proof.
  intros Hgood Hbad.
  unfold WhisperTranscriber.save_subtitles. cbn [String.eqb Ascii.eqb Bool.eqb].
  unfold WhisperTranscriber._save_srt, WhisperTranscriber.save_with. cbn [tr_segments].
  rewrite (write_segments_srt_until good stamps bad rest e Hgood Hbad).
  reflexivity.
Qed.

Lemma save_subtitles_srt_truncated_witness :
  let out := WhisperTranscriber.save_subtitles
      {| tr_text := None;
         tr_segments := Some [mkSegment (PyInt 0) (PyInt 2) "first";
                              mkSegment (PyFloat infinity) (PyInt 3) "second";
                              mkSegment (PyInt 3) (PyInt 4) "third"] |}
      "clip.srt" "srt" empty_state in
  fst out = Raise (ValueError "cannot convert float NaN to integer") /\
  content <$> (files (snd out) !! "clip.srt")
  = Some ("1" +:+ nl +:+ "00:00:00,000 --> 00:00:02,000" +:+ nl +:+ "first" +:+ nl +:+ nl).
Proof.
  assert (Hgood : Forall2 stamped [mkSegment (PyInt 0) (PyInt 2) "first"]
                    [("00:00:00,000", "00:00:02,000")])
    by (constructor; [split; vm_compute; reflexivity|constructor]).
  assert (Hbad : unrenderable (mkSegment (PyFloat infinity) (PyInt 3) "second")
                   (ValueError "cannot convert float NaN to integer"))
    by (left; vm_compute; reflexivity).
  cbv zeta.
  pose proof (save_subtitles_srt_truncated None _ _ _
                [mkSegment (PyInt 3) (PyInt 4) "third"] _ "clip.srt" empty_state
                Hgood Hbad) as H.
  cbn [app] in H. rewrite H.
  split; [reflexivity|vm_compute; reflexivity].
Defined.

(** ** transcriber.py:134-143, what a timestamp denotes *)

Lemma Qfloor_unique (x : Q) (a : Z) :
  (inject_Z a <= x)%Q -> (x < inject_Z a + 1)%Q -> Qfloor x = a.
Proof.
  intros Hlo Hhi.
  destruct (Qfloor_between x a (a + 1) Hlo) as [H1 H2]; [|lia].
  rewrite inject_Z_plus. exact Hhi.
Qed.

Lemma Qfloor_bounds (x : Q) :
  (inject_Z (Qfloor x) <= x)%Q /\ (x < inject_Z (Qfloor x) + 1)%Q.
Proof.
  split; [apply Qfloor_le|].
  pose proof (Qlt_floor x) as H. rewrite inject_Z_plus in H. exact H.
Qed.

(** The fields recompose to the time in whole milliseconds. *)
Lemma fields_recompose (q : Q) :
  ((TimestampSpec.hours q * 60 + TimestampSpec.minutes q) * 60
   + TimestampSpec.whole_seconds q) * 1000 + TimestampSpec.milliseconds q
  = Qfloor (q * 1000).
Proof.
  unfold TimestampSpec.hours, TimestampSpec.minutes, TimestampSpec.whole_seconds,
    TimestampSpec.milliseconds, TimestampSpec.Qmod.
  change (inject_Z 3600) with 3600%Q. change (inject_Z 60) with 60%Q.
  set (h := Qfloor (q / 3600)).
  destruct (Qfloor_bounds (q / 3600)) as [Hh1 Hh2]. fold h in Hh1, Hh2.
  assert (Eh : (q == q / 3600 * 3600)%Q) by (field; lra).
  set (y := (q / 3600)%Q) in *.
  set (m := Qfloor ((q - 3600 * inject_Z h) / 60)).
  destruct (Qfloor_bounds ((q - 3600 * inject_Z h) / 60)) as [Hm1 Hm2].
  fold m in Hm1, Hm2.
  assert (Em : (q - 3600 * inject_Z h == (q - 3600 * inject_Z h) / 60 * 60)%Q)
    by (field; lra).
  set (z := ((q - 3600 * inject_Z h) / 60)%Q) in *.
  assert (Ef : Qfloor (q / 60) = h * 60 + m).
  { apply Qfloor_unique; rewrite inject_Z_plus, inject_Z_mult;
      change (inject_Z 60) with 60%Q.
    - apply Qle_shift_div_l; lra.
    - apply Qlt_shift_div_r; lra. }
  rewrite Ef. rewrite inject_Z_plus, inject_Z_mult. change (inject_Z 60) with 60%Q.
  set (s := Qfloor (q - 60 * (inject_Z h * 60 + inject_Z m))).
  destruct (Qfloor_bounds (q - 60 * (inject_Z h * 60 + inject_Z m))) as [Hs1 Hs2].
  fold s in Hs1, Hs2.
  assert (Eq : Qfloor q = (h * 60 + m) * 60 + s).
  { apply Qfloor_unique; rewrite !inject_Z_plus, !inject_Z_mult, inject_Z_plus, inject_Z_mult;
      change (inject_Z 60) with 60%Q; lra. }
  rewrite Eq. rewrite !inject_Z_plus, !inject_Z_mult, inject_Z_plus, inject_Z_mult.
  change (inject_Z 60) with 60%Q.
  set (ms := Qfloor ((q - ((inject_Z h * 60 + inject_Z m) * 60 + inject_Z s)) * 1000)).
  destruct (Qfloor_bounds ((q - ((inject_Z h * 60 + inject_Z m) * 60 + inject_Z s)) * 1000))
    as [Hms1 Hms2].
  fold ms in Hms1, Hms2.
  symmetry. apply Qfloor_unique;
    rewrite !inject_Z_plus, !inject_Z_mult, !inject_Z_plus, !inject_Z_mult, inject_Z_plus,
      inject_Z_mult;
    change (inject_Z 60) with 60%Q; change (inject_Z 1000) with 1000%Q; lra.
Qed.

(** X4. For a non-negative time of an exact number type, the timestamp that
    [_format_timestamp] renders is built from four fields, hours [h >= 0],
    minutes and seconds in [0, 60) and milliseconds in [0, 1000), that
    recompose to the time truncated to whole milliseconds:
    [((h * 60 + m) * 60 + s) * 1000 + ms = floor(1000 * seconds)]. The
    rendering loses less than one millisecond and nothing else. *)
Theorem format_timestamp_denotes (seconds : pynum) (q : Q) (vtt : bool) :
  exact_value seconds = Some q ->
  (0 <= q)%Q ->
  exists h m s ms : Z,
    _format_timestamp seconds vtt
    = Ok (format_0d 2 h +:+ ":" +:+ format_0d 2 m +:+ ":" +:+ format_0d 2 s +:+
          (if vtt then "." else ",") +:+ format_0d 3 ms) /\
    0 <= h /\ 0 <= m < 60 /\ 0 <= s < 60 /\ 0 <= ms < 1000 /\
    ((h * 60 + m) * 60 + s) * 1000 + ms = Qfloor (q * 1000).
Proof.
  intros Hval Hq.
  destruct (fields_in_range q Hq) as (Hh & Hm & Hs & Hms).
  exists (TimestampSpec.hours q), (TimestampSpec.minutes q),
    (TimestampSpec.whole_seconds q), (TimestampSpec.milliseconds q).
  split; [|repeat split; try lia; apply fields_recompose].
  rewrite !format_0d_nonneg by lia.
  destruct seconds as [z|f|q']; cbn [exact_value] in Hval; try discriminate;
    injection Hval as <-.
  - apply format_timestamp_int. rewrite Zle_Qle. exact Hq.
  - apply format_timestamp_fraction, Hq.
Qed.

Lemma format_timestamp_denotes_witness :
  exists h m s ms : Z,
    _format_timestamp (PyFraction (37254 # 10)) false
    = Ok (format_0d 2 h +:+ ":" +:+ format_0d 2 m +:+ ":" +:+ format_0d 2 s +:+
          "," +:+ format_0d 3 ms) /\
    ((h * 60 + m) * 60 + s) * 1000 + ms = 3725400.
Proof.
  destruct (format_timestamp_denotes (PyFraction (37254 # 10)) (37254 # 10) false)
    as (h & m & s & ms & Hr & _ & _ & _ & _ & Hsum).
  - reflexivity.
  - vm_compute. discriminate.
  - exists h, m, s, ms. split; [exact Hr|exact Hsum].
Defined.

(** ** Paths: names and suffixes *)














(** ** processor.py:65-97, files touched by the pipeline *)




Lemma keeps_ret {A} (path : string) (a : A) : keeps path (mret a : M A).
Proof. intros st. reflexivity. Qed.















(** ** processor.py:65-97, the pipeline step by step *)

Lemma M_bind_ok {A B} (m : M A) (k : A -> M B) (st st' : State) (a : A) :
  m st = (Ok a, st') -> (m ≫= k) st = k a st'.
Proof. intros H. unfold mbind, M_bind. rewrite H. reflexivity. Qed.

Lemma M_bind_raise {A B} (m : M A) (k : A -> M B) (st st' : State) (e : exn) :
  m st = (Raise e, st') -> (m ≫= k) st = (Raise e, st').
Proof. intros H. unfold mbind, M_bind. rewrite H. reflexivity. Qed.


(** The state once the audio artifact has been extracted. *)
Lemma pipeline_after_extraction (O : Outside) (self : VideoProcessor.t)
    (video_path audio_path : string) (audio : File) (st : State) :
  Path.with_suffix video_path ".m4a" = Ok audio_path ->
  ffmpeg_run O video_path = Ok audio ->
  VideoProcessor.extract_transcribe_save O self video_path st
  = (transcription ←
       WhisperTranscriber.transcribe_audio O (VideoProcessor.transcriber self) audio_path;
     output_path ←
       lift (Path.with_suffix video_path
               ("." +:+ Config.output_format (VideoProcessor.config self)));
     _ ← WhisperTranscriber.save_subtitles transcription output_path
           (Config.output_format (VideoProcessor.config self));
     unlink audio_path) (set_files (insert audio_path audio) st).
Proof.
  intros Ha Hf. unfold VideoProcessor.extract_transcribe_save.
  rewrite (M_bind_ok _ _ st st audio_path) by (unfold lift; rewrite Ha; reflexivity).
  rewrite (M_bind_ok _ _ st (set_files (insert audio_path audio) st) tt)
    by (unfold VideoProcessor._extract_audio; rewrite Hf; reflexivity).
  reflexivity.
Qed.













(** ** processor.py:53-63, the pool *)

Lemma success_line_inj (p q : string) :
  LogInfo ("Successfully processed: " +:+ p) = LogInfo ("Successfully processed: " +:+ q) ->
  p = q.
Proof. intros [= H]. exact H. Qed.

Lemma outcome_success_item (items : list string) (records : list LogRecord) (p : string) :
  Forall2 outcome_of items records ->
  LogInfo ("Successfully processed: " +:+ p) ∈ records -> p ∈ items.
Proof.
  induction 1 as [|item r items records Hr _ IH]; intros Hin; [inversion Hin|].
  apply elem_of_cons in Hin as [Hin|Hin].
  - destruct Hr as [->|[e ->]]; [|discriminate].
    apply success_line_inj in Hin as ->. apply list_elem_of_here.
  - apply list_elem_of_further, IH, Hin.
Qed.

(** X10. The pool attempts every submitted item exactly once and never
    raises: it logs one record per item, in submission order, each the
    item's success line or its failure; the progress counter advances by
    the number of items; and the progress set gains exactly the items whose
    success was logged. *)
Theorem run_pool_accounting (O : Outside) (self : VideoProcessor.t)
    (items : list string) (st : State) :
  let out := VideoProcessor.run_pool O self items st in
  fst out = Ok tt /\
  completed (snd out) = completed st + Z.of_nat (length items) /\
  exists records,
    log (snd out) = log st ++ records /\
    Forall2 outcome_of items records /\
    forall p, p ∈ _processed_files (snd out)
              <-> p ∈ _processed_files st \/
                  LogInfo ("Successfully processed: " +:+ p) ∈ records.
Proof.
  revert st. induction items as [|item items IH]; intros st out; subst out.
  - cbn [VideoProcessor.run_pool]. split; [reflexivity|]. split; [cbn; lia|].
    exists []. split; [rewrite app_nil_r; reflexivity|]. split; [constructor|].
    intros p. split; [auto|]. intros [H|H]; [exact H|inversion H].
  - cbn [VideoProcessor.run_pool].
    destruct (process_single_video_outcome O self item st) as (H1 & H2 & H3 & H4).
    destruct (VideoProcessor._process_single_video O self item st) as [r st1] eqn:E.
    cbn [fst snd] in *. subst r.
    rewrite (M_bind_ok _ _ st st1 tt E).
    destruct (IH st1) as (I1 & I2 & records & I3 & I4 & I5).
    split; [exact I1|]. split; [rewrite I2, H2; cbn [length]; lia|].
    destruct (VideoProcessor.extract_transcribe_save O self item st) as [[u|e] s1] eqn:E1.
    + destruct (H4 u s1 eq_refl) as (Hp & _ & Hl).
      exists (LogInfo ("Successfully processed: " +:+ item) :: records).
      split; [rewrite I3, Hl, <- app_assoc; reflexivity|].
      split; [constructor; [left; reflexivity|exact I4]|].
      intros p. rewrite I5, Hp, elem_of_union, elem_of_singleton, elem_of_cons.
      split.
      * intros [[->|H]|H]; auto.
      * intros [H|[H|H]]; auto. apply success_line_inj in H. auto.
    + destruct (H3 e s1 eq_refl) as (Hp & _ & Hl).
      exists (LogFailed item e :: records).
      split; [rewrite I3, Hl, <- app_assoc; reflexivity|].
      split; [constructor; [right; eexists; reflexivity|exact I4]|].
      intros p. rewrite I5, Hp, elem_of_cons.
      split.
      * intros [H|H]; auto.
      * intros [H|[H|H]]; auto. discriminate.
Qed.

(** ** processor.py:28-36 and 118-124, discovery *)


(** ** config.py:9-56, resolving the configuration *)

Lemma WhisperModel_of_value (s : string) (m : WhisperModel) :
  WhisperModel_of s = Ok m <-> WhisperModel_value m = s.
Proof.
  unfold WhisperModel_of.
  destruct (String.eqb_spec s "whisper-large-v3") as [->|H1].
  { destruct m; split; intros H; try reflexivity; discriminate. }
  destruct (String.eqb_spec s "whisper-large-v3-turbo") as [->|H2].
  { destruct m; split; intros H; try reflexivity; discriminate. }
  destruct (String.eqb_spec s "distil-whisper-large-v3-en") as [->|H3].
  { destruct m; split; intros H; try reflexivity; discriminate. }
  split; [discriminate|]. intros <-. destruct m; [destruct H1|destruct H2|destruct H3]; reflexivity.
Qed.

Lemma ResponseFormat_of_value (s : string) (r : ResponseFormat) :
  ResponseFormat_of s = Ok r <-> ResponseFormat_value r = s.
Proof.
  unfold ResponseFormat_of.
  destruct (String.eqb_spec s "json") as [->|H1].
  { destruct r; split; intros H; try reflexivity; discriminate. }
  destruct (String.eqb_spec s "verbose_json") as [->|H2].
  { destruct r; split; intros H; try reflexivity; discriminate. }
  destruct (String.eqb_spec s "text") as [->|H3].
  { destruct r; split; intros H; try reflexivity; discriminate. }
  split; [discriminate|]. intros <-. destruct r; [destruct H1|destruct H2|destruct H3]; reflexivity.
Qed.

(** X12. [Config.from_env] returns a configuration exactly when [MODEL]
    (default [whisper-large-v3-turbo]) is the value of a [WhisperModel]
    member, [NUM_WORKERS] (default [4]) is accepted by [int], the
    [RESPONSE_FORMAT] (default [verbose_json]) is the value of a
    [ResponseFormat] member, and [TEMPERATURE], when set to a non-empty
    text, is accepted by [float]; otherwise it raises. In the configuration
    it returns, the model and response format are the members with those
    values, the language is never [None] (it defaults to [en]), and an unset
    or empty [TEMPERATURE] gives temperature [None] without calling [float]. *)
Theorem from_env_resolves (B : Builtins) (env : gmap string string) :
  ((exists c, Config.from_env B env = Ok c) <->
   (exists m n r,
      WhisperModel_value m = getenv env "MODEL" "whisper-large-v3-turbo" /\
      int_of_str B (getenv env "NUM_WORKERS" "4") = Ok n /\
      ResponseFormat_value r = getenv env "RESPONSE_FORMAT" "verbose_json" /\
      (truthy (env !! "TEMPERATURE") = true ->
       exists t, float_of_str B (getenv env "TEMPERATURE" "") = Ok t))) /\
  (forall c, Config.from_env B env = Ok c ->
     Config.groq_api_key c = getenv env "GROQ_API_KEY" "" /\
     WhisperModel_value (Config.model c) = getenv env "MODEL" "whisper-large-v3-turbo" /\
     Config.output_format c = getenv env "OUTPUT_FORMAT" "srt" /\
     int_of_str B (getenv env "NUM_WORKERS" "4") = Ok (Config.num_workers c) /\
     Config.language c = Some (getenv env "LANGUAGE" "en") /\
     Config.log_file c = getenv env "LOG_FILE" "subtitle_generation.log" /\
     ResponseFormat_value (Config.response_format c)
       = getenv env "RESPONSE_FORMAT" "verbose_json" /\
     (truthy (env !! "TEMPERATURE") = false -> Config.temperature c = None) /\
     (truthy (env !! "TEMPERATURE") = true ->
      exists t, Config.temperature c = Some t /\
                float_of_str B (getenv env "TEMPERATURE" "") = Ok t) /\
     Config.prompt c = env !! "PROMPT").
Proof.
  unfold Config.from_env. unfold mbind, result_bind.
  destruct (WhisperModel_of (getenv env "MODEL" "whisper-large-v3-turbo")) as [m|e1] eqn:Em.
  2:{ split.
      - split; [intros [c H]; discriminate|].
        intros (m & n & r & Hm & _). apply WhisperModel_of_value in Hm.
        rewrite Hm in Em. discriminate.
      - intros c H. discriminate. }
  apply WhisperModel_of_value in Em.
  destruct (int_of_str B (getenv env "NUM_WORKERS" "4")) as [n|e2] eqn:En.
  2:{ split.
      - split; [intros [c H]; discriminate|].
        intros (m' & n & r & _ & Hn & _). discriminate.
      - intros c H. discriminate. }
  destruct (ResponseFormat_of (getenv env "RESPONSE_FORMAT" "verbose_json")) as [r|e3] eqn:Er.
  2:{ split.
      - split; [intros [c H]; discriminate|].
        intros (m' & n' & r & _ & _ & Hr & _). apply ResponseFormat_of_value in Hr.
        rewrite Hr in Er. discriminate.
      - intros c H. discriminate. }
  apply ResponseFormat_of_value in Er.
  destruct (truthy (env !! "TEMPERATURE")) eqn:Et.
  - destruct (float_of_str B (getenv env "TEMPERATURE" "")) as [t|e4] eqn:Ef.
    + split.
      * split; [intros _; exists m, n, r; eauto 6|intros _; eexists; reflexivity].
      * intros c [= <-]. cbn. repeat split; try assumption; try reflexivity.
        -- intros H; discriminate.
        -- intros _. exists t. auto.
    + split.
      * split; [intros [c H]; discriminate|].
        intros (m' & n' & r' & _ & _ & _ & Ht). destruct (Ht eq_refl) as [t Ht']. discriminate.
      * intros c H. discriminate.
  - split.
    + split; [intros _; exists m, n, r; repeat split; try assumption; intros H; discriminate
             |intros _; eexists; reflexivity].
    + intros c [= <-]. cbn. repeat split; try assumption; try reflexivity.
      intros H; discriminate.
Qed.

(** ** cli.py:12-97, the command *)

Lemma run_pool_total (O : Outside) (self : VideoProcessor.t) (items : list string) :
  forall st, fst (VideoProcessor.run_pool O self items st) = Ok tt.
Proof.
  induction items as [|item items IH]; intros st; [reflexivity|].
  cbn [VideoProcessor.run_pool].
  destruct (process_single_video_outcome O self item st) as (H1 & _).
  destruct (VideoProcessor._process_single_video O self item st) as [r st1] eqn:E.
  cbn [fst] in H1. subst r. rewrite (M_bind_ok _ _ st st1 tt E). apply IH.
Qed.


Lemma try_body_cases (B : Builtins) (O : Outside) (env : gmap string string)
    (args : Cli.Args) (st : State) :
  Cli.try_body B O env args st =
    match Cli.resolved_config B env args with
    | Raise e => (Raise e, st)
    | Ok config =>
        if negb (bool_of_str (Config.groq_api_key config))
        then (Raise (ValueError
                "GROQ_API_KEY not found in environment variables or CLI arguments"), st)
        else if negb (bool_decide (is_Some (files st !! Cli.input_path args)) ||
                      existsb (VideoProcessor.below (Cli.input_path args))
                        (elements (dom (files st))))
        then (Raise (ValueError ("Input path does not exist: " +:+ Cli.input_path args)), st)
        else if negb (bool_decide (lower (Cli.output_format args) ∈ ["srt"; "vtt"; "txt"]))
        then (Raise (ValueError ("Unsupported output format: " +:+ Cli.output_format args)),
              st)
        else (processor ← VideoProcessor.__init__ config;
              VideoProcessor.process_videos O processor (Cli.input_path args)) st
    end.
Proof.
  unfold Cli.try_body. unfold mbind at 1. unfold M_bind at 1. unfold lift.
  destruct (Cli.resolved_config B env args) as [config|e]; [|reflexivity].
  destruct (negb (bool_of_str (Config.groq_api_key config))); [reflexivity|].
  unfold mbind at 1. unfold M_bind at 1. unfold Cli.path_exists.
  destruct (negb (_ || _)); [reflexivity|].
  destruct (negb (bool_decide _)); reflexivity.
Qed.



(** ** cli.py:62-72, the command line over the environment *)

(** X14. The command line takes precedence over the environment. Two
    environments that agree on [GROQ_API_KEY], [LANGUAGE], [LOG_FILE],
    [TEMPERATURE] and [PROMPT], and in which [Config.from_env] returns,
    resolve to the same configuration under the same command line: the
    values of [MODEL], [OUTPUT_FORMAT], [NUM_WORKERS], [RECURSIVE] and
    [RESPONSE_FORMAT] in the environment have no effect on it. *)
Theorem command_line_precedence (B : Builtins) (env env' : gmap string string)
    (args : Cli.Args) (c c' : Config.t) :
  (forall key, key ∈ ["GROQ_API_KEY"; "LANGUAGE"; "LOG_FILE"; "TEMPERATURE"; "PROMPT"] ->
     env !! key = env' !! key) ->
  Cli.resolved_config B env args = Ok c ->
  Cli.resolved_config B env' args = Ok c' ->
  c = c'.
Proof.
  intros Hagree.
  assert (Hget : forall key d,
            key ∈ ["GROQ_API_KEY"; "LANGUAGE"; "LOG_FILE"; "TEMPERATURE"; "PROMPT"] ->
            getenv env key d = getenv env' key d).
  { intros key d Hk. unfold getenv. rewrite (Hagree key Hk). reflexivity. }
  unfold Cli.resolved_config, Config.from_env.
  rewrite (Hget "GROQ_API_KEY" "") by (set_unfold; tauto).
  rewrite (Hget "LANGUAGE" "en") by (set_unfold; tauto).
  rewrite (Hget "LOG_FILE" "subtitle_generation.log") by (set_unfold; tauto).
  rewrite (Hget "TEMPERATURE" "") by (set_unfold; tauto).
  rewrite (Hagree "TEMPERATURE") by (set_unfold; tauto).
  rewrite (Hagree "PROMPT") by (set_unfold; tauto).
  unfold mbind, mret, result_bind, result_ret.
  destruct (WhisperModel_of (getenv env "MODEL" "whisper-large-v3-turbo")); [|discriminate].
  destruct (int_of_str B (getenv env "NUM_WORKERS" "4")); [|discriminate].
  destruct (ResponseFormat_of (getenv env "RESPONSE_FORMAT" "verbose_json"));
    [|discriminate].
  destruct (WhisperModel_of (getenv env' "MODEL" "whisper-large-v3-turbo"));
    [|intros _; discriminate].
  destruct (int_of_str B (getenv env' "NUM_WORKERS" "4")); [|intros _; discriminate].
  destruct (ResponseFormat_of (getenv env' "RESPONSE_FORMAT" "verbose_json"));
    [|intros _; discriminate].
  destruct (truthy (env' !! "TEMPERATURE")).
  - destruct (float_of_str B (getenv env' "TEMPERATURE" "")); [|discriminate].
    intros [= <-] [= <-]. reflexivity.
  - intros [= <-] [= <-]. reflexivity.
Qed.

Lemma command_line_precedence_witness :
  exists c c',
    Cli.resolved_config builtins_4 env_model_format args_default = Ok c /\
    Cli.resolved_config builtins_4 ∅ args_default = Ok c' /\
    c = c'.
Proof.
  eexists. eexists. split; [vm_compute; reflexivity|]. split; [vm_compute; reflexivity|].
  apply (command_line_precedence builtins_4 env_model_format ∅ args_default).
  - intros key Hk.
    repeat (apply elem_of_cons in Hk as [->|Hk]; [vm_compute; reflexivity|]).
    inversion Hk.
  - vm_compute. reflexivity.
  - vm_compute. reflexivity.
Defined.

(** ** processor.py:53-63 and 88-89, the shared set under any interleaving *)

Lemma step_memory (w w' : Workers.worker) (sh sh' : Workers.shared) :
  Workers.step w sh = Some (w', sh') ->
  Workers.video_path w' = Workers.video_path w /\
  Workers.at_ w' <> Workers.AtAdd /\
  Workers.memory sh ⊆ Workers.memory sh' /\
  Workers.memory sh' ⊆ {[Workers.video_path w]} ∪ Workers.memory sh /\
  (Workers.at_ w = Workers.AtAdd -> Workers.video_path w ∈ Workers.memory sh').
Proof.
  unfold Workers.step.
  destruct (Workers.at_ w) eqn:E; intros [= <- <-]; cbn [Workers.video_path Workers.at_
    Workers.memory];
    (split; [reflexivity|split; [discriminate|]]);
    (split; [intros x Hx; set_unfold; tauto|]);
    (split; [intros x Hx; set_unfold; tauto|]);
    try discriminate.
  intros _. apply elem_of_union_l, elem_of_singleton. reflexivity.
Qed.

Lemma step_at_memory (i : nat) (c c' : Workers.pool) :
  Workers.step_at i c = Some c' ->
  Forall (fun w => Workers.at_ w <> Workers.AtAdd ->
                   Workers.video_path w ∈ Workers.memory (snd c)) (fst c) ->
  Workers.video_path <$> fst c' = Workers.video_path <$> fst c /\
  Workers.memory (snd c) ⊆ Workers.memory (snd c') /\
  Workers.memory (snd c')
    ⊆ list_to_set (Workers.video_path <$> fst c) ∪ Workers.memory (snd c) /\
  Forall (fun w => Workers.at_ w <> Workers.AtAdd ->
                   Workers.video_path w ∈ Workers.memory (snd c')) (fst c').
Proof.
  destruct c as [ws sh]. unfold Workers.step_at. cbn [fst snd].
  destruct (ws !! i) as [w|] eqn:Ew; [|discriminate].
  destruct (Workers.step w sh) as [[w' sh']|] eqn:Es; [|discriminate].
  intros [= <-] Hall. cbn [fst snd].
  destruct (step_memory w w' sh sh' Es) as (Hp & Hpc & Hsub & Hsup & Hadd).
  pose proof (Forall_lookup_1 _ _ _ _ Hall Ew) as Hw. cbn beta in Hw.
  split; [|split; [exact Hsub|split]].
  - rewrite list_fmap_insert, Hp. apply list_insert_id.
    rewrite list_lookup_fmap, Ew. reflexivity.
  - intros x Hx. apply Hsup in Hx. apply elem_of_union in Hx as [Hx|Hx].
    + apply elem_of_singleton in Hx as ->.
      apply elem_of_union_l, elem_of_list_to_set, list_elem_of_fmap.
      exists w. split; [reflexivity|]. eapply list_elem_of_lookup_2. exact Ew.
    + apply elem_of_union_r, Hx.
  - apply Forall_insert.
    + apply (Forall_impl _ _ _ Hall). intros v Hv Hn. apply Hsub, Hv, Hn.
    + intros _. rewrite Hp. destruct (Workers.at_ w) eqn:E.
      * apply Hadd. reflexivity.
      * apply Hsub, Hw. discriminate.
      * apply Hsub, Hw. discriminate.
      * apply Hsub, Hw. discriminate.
      * apply Hsub, Hw. discriminate.
Qed.

Lemma run_memory (schedule : list nat) :
  forall c c',
    Workers.run schedule c = Some c' ->
    Forall (fun w => Workers.at_ w <> Workers.AtAdd ->
                     Workers.video_path w ∈ Workers.memory (snd c)) (fst c) ->
    Workers.video_path <$> fst c' = Workers.video_path <$> fst c /\
    Workers.memory (snd c) ⊆ Workers.memory (snd c') /\
    Workers.memory (snd c')
      ⊆ list_to_set (Workers.video_path <$> fst c) ∪ Workers.memory (snd c) /\
    Forall (fun w => Workers.at_ w <> Workers.AtAdd ->
                     Workers.video_path w ∈ Workers.memory (snd c')) (fst c').
Proof.
  induction schedule as [|i rest IH]; intros c c' Hrun Hall; cbn [Workers.run] in Hrun.
  - injection Hrun as <-.
    split; [reflexivity|split; [intros x Hx; exact Hx|split; [|exact Hall]]].
    intros x Hx. apply elem_of_union_r, Hx.
  - destruct (Workers.step_at i c) as [c1|] eqn:Es; [|discriminate].
    destruct (step_at_memory i c c1 Es Hall) as (H1 & H2 & H3 & H4).
    destruct (IH c1 c' Hrun H4) as (K1 & K2 & K3 & K4).
    split; [rewrite K1; exact H1|split; [|split; [|exact K4]]].
    + intros x Hx. apply K2, H2, Hx.
    + intros x Hx. apply K3 in Hx. rewrite H1 in Hx.
      apply elem_of_union in Hx as [Hx|Hx]; [apply elem_of_union_l, Hx|apply H3, Hx].
Qed.

(** X15. Whatever the interleaving of the workers, the in-memory set of
    processed videos is never corrupted: after any schedule it contains
    everything it held at the start, holds nothing but that and submitted
    paths, and once every worker has finished it is exactly the start set
    plus all submitted paths. What an interleaving can damage is the progress
    file, not the set. *)
Theorem interleaved_memory_complete (paths : list string) (sh : Workers.shared)
    (schedule : list nat) (c : Workers.pool) :
  Workers.run schedule (Workers.start paths sh) = Some c ->
  Workers.memory sh ⊆ Workers.memory (snd c) /\
  Workers.memory (snd c) ⊆ list_to_set paths ∪ Workers.memory sh /\
  (Workers.finished c ->
   Workers.memory (snd c) = list_to_set paths ∪ Workers.memory sh).
Proof.
  intros Hrun.
  assert (Hstart : Forall (fun w => Workers.at_ w <> Workers.AtAdd ->
                      Workers.video_path w ∈ Workers.memory (snd (Workers.start paths sh)))
                     (fst (Workers.start paths sh))).
  { unfold Workers.start. cbn [fst snd]. apply Forall_forall. intros w Hw.
    apply list_elem_of_fmap in Hw as (p & -> & _). intros Hn. destruct Hn. reflexivity. }
  assert (Hpaths : Workers.video_path <$> fst (Workers.start paths sh) = paths).
  { unfold Workers.start. cbn [fst]. clear Hrun Hstart.
    induction paths as [|p ps IH]; [reflexivity|]. cbn. f_equal. exact IH. }
  destruct (run_memory schedule _ c Hrun Hstart) as (K1 & K2 & K3 & K4).
  rewrite Hpaths in K1, K3. cbn [snd Workers.start] in K2, K3.
  split; [exact K2|split; [exact K3|]].
  intros Hfin. apply set_eq. intros x. split; [apply K3|].
  intros Hx. apply elem_of_union in Hx as [Hx|Hx]; [|apply K2, Hx].
  apply elem_of_list_to_set in Hx. rewrite <- K1 in Hx.
  apply list_elem_of_fmap in Hx as (w & -> & Hw).
  unfold Workers.finished in Hfin.
  rewrite Forall_forall in Hfin, K4.
  apply (K4 w Hw). rewrite (Hfin w Hw). discriminate.
Qed.

Lemma interleaved_memory_complete_witness :
  exists c,
    Workers.run [0; 0; 0; 1; 1; 1; 1; 0]%nat (Workers.start ["a"; "b"] shared_empty)
    = Some c /\
    Workers.memory shared_empty ⊆ Workers.memory (snd c) /\
    Workers.memory (snd c) ⊆ list_to_set ["a"; "b"] ∪ Workers.memory shared_empty /\
    (Workers.finished c ->
     Workers.memory (snd c) = list_to_set ["a"; "b"] ∪ Workers.memory shared_empty).
Proof.
  eexists. split; [vm_compute; reflexivity|].
  apply (interleaved_memory_complete ["a"; "b"] shared_empty [0; 0; 0; 1; 1; 1; 1; 0]%nat).
  vm_compute. reflexivity.
Defined.


(** ** processor.py:53-97, the requests of a run *)

Lemma silent_bind {A B} (m : M A) (k : A -> M B) :
  silent m -> (forall a, silent (k a)) -> silent (m ≫= k).
Proof.
  intros Hm Hk st. unfold mbind, M_bind.
  specialize (Hm st). destruct (m st) as [[a|e] st1]; cbn [snd] in *.
  - rewrite (Hk a st1). exact Hm.
  - exact Hm.
Qed.

Lemma silent_write_text (path text : string) : silent (write_text path text).
Proof. intros st. reflexivity. Qed.

Lemma silent_unlink (path : string) : silent (unlink path).
Proof. intros st. unfold unlink. destruct (files st !! path); reflexivity. Qed.

Lemma silent_save_subtitles (transcription : Transcription) (output_path kind : string) :
  silent (WhisperTranscriber.save_subtitles transcription output_path kind).
Proof.
  assert (Hw : forall header block,
            silent (WhisperTranscriber.save_with header block transcription output_path)).
  { intros header block. unfold WhisperTranscriber.save_with.
    destruct (tr_segments transcription) as [segments|].
    - destruct (WhisperTranscriber.write_segments block 1 segments header) as [text r].
      apply silent_bind; [apply silent_write_text|]. intros _ st. reflexivity.
    - apply silent_bind; [apply silent_write_text|]. intros _ st. reflexivity. }
  unfold WhisperTranscriber.save_subtitles.
  destruct (String.eqb kind "srt"); [apply Hw|].
  destruct (String.eqb kind "vtt"); [apply Hw|].
  destruct (String.eqb kind "txt"); [apply Hw|].
  intros st. reflexivity.
Qed.

(** The requests of the first part of the [try] block. *)
Lemma extract_transcribe_save_requests (O : Outside) (self : VideoProcessor.t)
    (item : string) (st : State) :
  let st' := snd (VideoProcessor.extract_transcribe_save O self item st) in
  requests st' = requests st \/
  exists req, request_of O self item req /\ requests st' = requests st ++ [req].
Proof.
  cbv zeta.
  destruct (Path.with_suffix item ".m4a") as [audio_path|e0] eqn:Ha.
  2:{ left. unfold VideoProcessor.extract_transcribe_save.
      rewrite (M_bind_raise _ _ st st e0) by (unfold lift; rewrite Ha; reflexivity).
      reflexivity. }
  destruct (ffmpeg_run O item) as [audio|e1] eqn:Hf.
  2:{ left. destruct (extraction_failure O self item st e1 Hf) as [e' ->]. reflexivity. }
  rewrite (pipeline_after_extraction O self item audio_path audio st Ha Hf).
  set (st1 := set_files (insert audio_path audio) st).
  assert (Hl : files st1 !! audio_path = Some audio) by apply lookup_insert_eq.
  pose proof (transcribe_audio_cases O (VideoProcessor.transcriber self) audio_path st1
                audio Hl) as Hc.
  change WhisperTranscriber.MAX_FILE_SIZE with 26214400 in Hc.
  destruct (Z.ltb_spec 26214400 (st_size audio)) as [Hlt|Hle].
  { left. rewrite (M_bind_raise _ _ st1 st1 _ Hc). reflexivity. }
  destruct (negb (bool_decide (lower (Path.suffix audio_path)
                                 ∈ WhisperTranscriber.SUPPORTED_AUDIO_FORMATS))).
  { left. rewrite (M_bind_raise _ _ st1 st1 _ Hc). reflexivity. }
  cbv zeta in Hc. right.
  exists (WhisperTranscriber.form_data (VideoProcessor.transcriber self) audio_path
            (content audio)).
  split; [exists audio_path, audio; repeat split; assumption|].
  assert (Hrest : forall transcription,
            silent (output_path ←
                      lift (Path.with_suffix item
                              ("." +:+ Config.output_format (VideoProcessor.config self)));
                    _ ← WhisperTranscriber.save_subtitles transcription output_path
                          (Config.output_format (VideoProcessor.config self));
                    unlink audio_path)).
  { intros transcription. apply silent_bind; [intros s; reflexivity|]. intros output_path.
    apply silent_bind; [apply silent_save_subtitles|]. intros _. apply silent_unlink. }
  destruct (WhisperTranscriber.transcribe_audio O (VideoProcessor.transcriber self)
              audio_path st1) as [r st2] eqn:Et.
  assert (Hst2 : requests st2 = requests st ++
            [WhisperTranscriber.form_data (VideoProcessor.transcriber self) audio_path
               (content audio)]).
  { destruct (negb (status (service O (WhisperTranscriber.form_data
                (VideoProcessor.transcriber self) audio_path (content audio))) =? 200));
      [injection Hc as _ ->; reflexivity|].
    destruct (WhisperTranscriber.response_format (VideoProcessor.transcriber self));
      injection Hc as _ ->; reflexivity. }
  destruct r as [transcription|e].
  - rewrite (M_bind_ok _ _ st1 st2 transcription Et), (Hrest transcription st2).
    exact Hst2.
  - rewrite (M_bind_raise _ _ st1 st2 e Et). exact Hst2.
Qed.

Lemma process_single_video_requests (O : Outside) (self : VideoProcessor.t)
    (item : string) (st : State) :
  let st' := snd (VideoProcessor._process_single_video O self item st) in
  requests st' = requests st \/
  exists req, request_of O self item req /\ requests st' = requests st ++ [req].
Proof.
  cbv zeta. pose proof (extract_transcribe_save_requests O self item st) as H.
  cbv zeta in H.
  destruct (VideoProcessor.extract_transcribe_save O self item st) as [[u|e] st1] eqn:E;
    cbn [snd] in H.
  - rewrite (process_success O self item st st1 u E). exact H.
  - rewrite (process_failure O self item st st1 e E). exact H.
Qed.

(** A run of the pool sends at most one request per submitted item, after
    the requests already sent and in submission order; each is the request
    of an item that was submitted. *)
Lemma run_pool_sent (O : Outside) (self : VideoProcessor.t)
    (items : list string) (st : State) :
  exists sent,
    requests (snd (VideoProcessor.run_pool O self items st)) = requests st ++ sent /\
    (length sent <= length items)%nat /\
    exists senders,
      sublist senders items /\ Forall2 (request_of O self) senders sent.
Proof.
  revert st. induction items as [|item items IH]; intros st.
  - exists []. split; [rewrite app_nil_r; reflexivity|]. split; [reflexivity|].
    exists []. split; constructor.
  - cbn [VideoProcessor.run_pool].
    destruct (process_single_video_outcome O self item st) as (Hok & _).
    pose proof (process_single_video_requests O self item st) as Hreq. cbv zeta in Hreq.
    destruct (VideoProcessor._process_single_video O self item st) as [r st1] eqn:E.
    cbn [fst snd] in Hok, Hreq. subst r.
    rewrite (M_bind_ok _ _ st st1 tt E).
    destruct (IH st1) as (sent & Hsent & Hlen & senders & Hsub & Hall).
    destruct Hreq as [Hreq|(req & Hr & Hreq)].
    + exists sent. split; [rewrite Hsent, Hreq; reflexivity|].
      split; [cbn [length]; lia|].
      exists senders. split; [apply sublist_cons, Hsub|exact Hall].
    + exists (req :: sent).
      split; [rewrite Hsent, Hreq, <- app_assoc; reflexivity|].
      split; [cbn [length]; lia|].
      exists (item :: senders). split; [apply sublist_skip, Hsub|].
      constructor; assumption.
Qed.


(** ** cli.py:62-87 with processor.py:24, the requests of the command *)

Lemma resolved_language (B : Builtins) (env : gmap string string) (args : Cli.Args)
    (config : Config.t) :
  Cli.resolved_config B env args = Ok config -> is_Some (Config.language config).
Proof.
  unfold Cli.resolved_config, Config.from_env, mbind, mret, result_bind, result_ret.
  destruct (WhisperModel_of _); [|discriminate].
  destruct (int_of_str B _); [|discriminate].
  destruct (ResponseFormat_of _); [|discriminate].
  destruct (if truthy (env !! "TEMPERATURE") then _ else _); [|discriminate].
  intros [= <-]. cbn [Cli.merge Config.language]. unfold Cli.or_opt.
  destruct (truthy (Cli.lang args)) eqn:E; [|eexists; reflexivity].
  destruct (Cli.lang args); [eexists; reflexivity|discriminate].
Qed.

(** X17. Every request that the command sends goes to the fixed
    transcription URL with the resolved API key as bearer token, and, since
    the processor hands the transcriber only the key and the language, its
    [model] field holds the resolved language (which is never absent), its
    [response_format] is [verbose_json], and it has no [language],
    [temperature] or [prompt] field, whatever [--model], [--response],
    [--temperature] and [--prompt] say. Requests sent before the command are
    kept. *)
Theorem process_requests (B : Builtins) (O : Outside) (env : gmap string string)
    (args : Cli.Args) (st : State) (config : Config.t) :
  Cli.resolved_config B env args = Ok config ->
  exists sent,
    requests (snd (Cli.process B O env args st)) = requests st ++ sent /\
    Forall (fun req =>
              req_url req = "https://api.groq.com/openai/v1/audio/transcriptions" /\
              req_authorization req = "Bearer " +:+ Config.groq_api_key config /\
              req_model req = Config.language config /\
              is_Some (req_model req) /\
              req_response_format req = "verbose_json" /\
              req_language req = None /\
              req_temperature req = None /\
              req_prompt req = None) sent.
Proof.
  intros Hc.
  assert (Hnone : forall s : State, requests s = requests st ->
            exists sent, requests s = requests st ++ sent /\
              Forall (fun req =>
                req_url req = "https://api.groq.com/openai/v1/audio/transcriptions" /\
                req_authorization req = "Bearer " +:+ Config.groq_api_key config /\
                req_model req = Config.language config /\
                is_Some (req_model req) /\
                req_response_format req = "verbose_json" /\
                req_language req = None /\
                req_temperature req = None /\
                req_prompt req = None) sent).
  { intros s Hs. exists []. split; [rewrite app_nil_r; exact Hs|constructor]. }
  unfold Cli.process. rewrite try_body_cases, Hc.
  destruct (negb (bool_of_str (Config.groq_api_key config))); [apply Hnone; reflexivity|].
  destruct (negb (_ || _)); [apply Hnone; reflexivity|].
  destruct (negb (bool_decide _)); [apply Hnone; reflexivity|].
  destruct (VideoProcessor._load_progress st) as [[loaded|e] s'] eqn:El;
    (assert (s' = st) as ->
       by (pose proof (load_progress_state st) as Hs; rewrite El in Hs; exact Hs)).
  2:{ assert (Hi : VideoProcessor.__init__ config st = (Raise e, st)).
      { unfold VideoProcessor.__init__. unfold mbind at 1. unfold M_bind at 1.
        rewrite El. reflexivity. }
      rewrite (M_bind_raise _ _ st st e Hi). apply Hnone. reflexivity. }
  rewrite (M_bind_ok _ _ st _ _ (init_loaded config st loaded El)).
  fold (processor_of config).
  set (st0 := snd (set_processed loaded st)).
  destruct (discover_total (processor_of config) (Cli.input_path args) st0)
    as [video_files Hd].
  rewrite (process_videos_cases O (processor_of config) (Cli.input_path args) st0
             video_files Hd).
  destruct video_files as [|f l]; [apply Hnone; reflexivity|].
  destruct (VideoProcessor.unprocessed (f :: l) (_processed_files st0)) as [|u us];
    [apply Hnone; reflexivity|].
  destruct (run_pool_sent O (processor_of config) (u :: us) st0)
    as (sent & Hsent & _ & senders & _ & Hall).
  destruct (run_pool_total O (processor_of config) (u :: us) st0).
  destruct (VideoProcessor.run_pool O (processor_of config) (u :: us) st0) as [r st1].
  cbn [snd] in Hsent.
  exists sent. split; [destruct r; exact Hsent|].
  clear Hsent. induction Hall as [|item req senders sent Hreq _ IH]; constructor; [|exact IH].
  destruct Hreq as (audio_path & audio & _ & _ & _ & ->).
  destruct (resolved_language B env args config Hc) as [lang Hlang].
  cbn. rewrite Hlang. repeat split. eexists. reflexivity.
Qed.

Lemma process_requests_witness :
  exists sent,
    requests (snd (Cli.process builtins_4 outside_three ∅ args_default state_three))
    = requests state_three ++ sent /\
    Forall (fun req => req_model req = Some "en" /\ req_language req = None) sent /\
    length sent = 2%nat.
Proof.
  destruct (process_requests builtins_4 outside_three ∅ args_default state_three
              (Cli.merge args_default
                 {| Config.groq_api_key := ""; Config.model := LARGE_V3_TURBO;
                    Config.output_format := "srt"; Config.response_format := VERBOSE_JSON;
                    Config.num_workers := 4; Config.temperature := None;
                    Config.language := Some "en"; Config.recursive := false;
                    Config.log_file := "subtitle_generation.log";
                    Config.prompt := None |}))
    as (sent & Hsent & Hall).
  - vm_compute. reflexivity.
  - exists sent. split; [exact Hsent|]. split.
    + apply (Forall_impl _ _ _ Hall). intros req (_ & _ & Hm & _ & _ & Hl & _).
      split; [exact Hm|exact Hl].
    + assert (Hl : length (requests (snd (Cli.process builtins_4 outside_three ∅
                                           args_default state_three))) = 2%nat)
        by (vm_compute; reflexivity).
      rewrite Hsent in Hl. exact Hl.
Defined.
